(** * The Apache Druid handler of MindsDB

    A shallow embedding of
    [mindsdb/integrations/handlers/druid_handler/druid_handler.py]
    (class [DruidHandler]) and the verification of its connection
    life cycle and of its raw query executor.

    The handler is glue code around three collaborators that are not
    part of the handler itself: the DB-API driver [pydruid.db], the
    [pandas] data frame, and the response classes of
    [mindsdb.integrations.libs.response].  The driver is a parameter of
    the development (class [Driver]); every call into it may return or
    raise and may change the state of the outside world.  Python
    exceptions are values of the result type [outcome]; the methods of
    the handler are computations in a state-and-exception monad [M]
    over the [world]: the handler object, the driver's state, the
    chronological record of the calls made to the driver, and the error
    log.  The method [query], which renders an AST with [mindsdb_sql]
    and hands the text to [native_query], is left out. *)

From Stdlib Require Import ZArith SpecFloat.
From stdpp Require Import base option list strings gmap pretty.

(** ** Python values and exceptions *)

Global Instance spec_float_eq_dec : EqDecision spec_float.
Proof. solve_decision. Defined.

(** The Python values that occur as configuration values, as fields of
    result rows and as column labels; a [float] is an IEEE 754 double. *)
Inductive pyval : Type :=
  | PyNone
  | PyBool (b : bool)
  | PyInt (z : Z)
  | PyFloat (f : spec_float)
  | PyStr (s : string).

Global Instance pyval_eq_dec : EqDecision pyval.
Proof. solve_decision. Defined.

(** A raised exception: the name of its class, the text [str(e)], and
    whether the class derives from [Exception] (the clause
    [except Exception] lets [KeyboardInterrupt], [SystemExit] and the
    other direct subclasses of [BaseException] pass). *)
Record pyexc : Type := PyExc {
  exc_class : string;
  exc_str : string;
  exc_is_Exception : bool
}.

Global Instance pyexc_eq_dec : EqDecision pyexc.
Proof. solve_decision. Defined.

(** The characters that a string literal cannot hold as they are. *)
Definition newline : string := String (Ascii.ascii_of_nat 10) EmptyString.
Definition dquote : string := String (Ascii.ascii_of_nat 34) EmptyString.

(** [repr] of a [str] without characters to escape, and of a list. *)
Definition repr_str (s : string) : string := "'" +:+ s +:+ "'".

Fixpoint str_join (sep : string) (l : list string) : string :=
  match l with
  | [] => ""
  | [s] => s
  | s :: l' => s +:+ sep +:+ str_join sep l'
  end.

Definition repr_list (l : list string) : string :=
  "[" +:+ str_join ", " (repr_str <$> l) +:+ "]".

(** The built-in exceptions the interpreter raises in the handler. *)
Definition KeyError (key : string) : pyexc :=
  PyExc "KeyError" (repr_str key) true.
Definition TypeError (msg : string) : pyexc := PyExc "TypeError" msg true.
Definition AttributeError (msg : string) : pyexc :=
  PyExc "AttributeError" msg true.
Definition IndexError (msg : string) : pyexc := PyExc "IndexError" msg true.
Definition ValueError (msg : string) : pyexc := PyExc "ValueError" msg true.
Definition OverflowError (msg : string) : pyexc :=
  PyExc "OverflowError" msg true.

(** [None.attr] *)
Definition NoneType_has_no_attribute (attr : string) : pyexc :=
  AttributeError ("'NoneType' object has no attribute " +:+ repr_str attr).

(** The result of evaluating a Python expression or call. *)
Inductive outcome (A : Type) : Type :=
  | Returned (a : A)
  | Raised (e : pyexc).
Arguments Returned {A} a.
Arguments Raised {A} e.

(** A dict with [str] keys, such as [connection_data]. *)
Abbreviation dict := (gmap string pyval).

(** [d[key]] *)
Definition getitem (d : dict) (key : string) : outcome pyval :=
  match d !! key with
  | Some v => Returned v
  | None => Raised (KeyError key)
  end.

(** [if key not in d: d[key] = v] *)
Definition setdefault (key : string) (v : pyval) (d : dict) : dict :=
  match d !! key with
  | Some _ => d
  | None => <[key := v]> d
  end.

(** ** Result sets and data frames *)

(** A fetched row and a column descriptor of [cursor.description] are
    tuples. *)
Abbreviation row := (list pyval).
Abbreviation descriptor := (list pyval).

(** [x[0]] on a tuple. *)
Definition item0 (x : descriptor) : outcome pyval :=
  match x with
  | v :: _ => Returned v
  | [] => Raised (IndexError "tuple index out of range")
  end.

(** [[x[0] for x in description]]: the comprehension stops at the first
    element that raises. *)
Fixpoint column_names (description : list descriptor) : outcome (list pyval) :=
  match description with
  | [] => Returned []
  | x :: rest =>
      match item0 x with
      | Raised e => Raised e
      | Returned name =>
          match column_names rest with
          | Raised e => Raised e
          | Returned names => Returned (name :: names)
          end
      end
  end.

(** A [pandas.DataFrame] with the default index: the column labels and
    the rows, every row as wide as the list of labels. *)
Record DataFrame : Type := mkDataFrame {
  columns : list pyval;
  data : list row
}.

Global Instance DataFrame_eq_dec : EqDecision DataFrame.
Proof. solve_decision. Defined.

(** The width [pandas] gives to a list of tuples: that of the longest. *)
Definition data_width (rows : list row) : nat :=
  foldr (fun r w => Nat.max (length r) w) 0%nat rows.

(** Shorter tuples are filled up with missing values. *)
Definition pad_row (w : nat) (r : row) : row :=
  r ++ replicate (w - length r) PyNone.

(** [float(z)]: the double nearest to [z], ties to even. *)
Definition float_of_int (z : Z) : spec_float :=
  binary_normalize 53 1024 z 0 false.

Definition is_nan (f : spec_float) : bool :=
  match f with S754_nan => true | _ => false end.
Definition is_infinite (f : spec_float) : bool :=
  match f with S754_infinity _ => true | _ => false end.

(** [float(z)] raises [OverflowError] when the nearest double would be
    infinite: from [2^1024 - 2^970] on. *)
Definition float_overflows (z : Z) : bool :=
  bool_decide (2 ^ 1024 - 2 ^ 970 <= Z.abs z)%Z.

Definition INT64_MIN : Z := - 2 ^ 63.
Definition INT64_MAX : Z := 2 ^ 63 - 1.
Definition UINT64_MAX : Z := 2 ^ 64 - 1.

(** What [pandas] (1.x and 2.x, [numpy] backend) has seen in a column of
    objects when it infers the type of the column
    ([lib.maybe_convert_objects]). *)
Record seen : Type := mkSeen {
  null_ : bool;
  nan_ : bool;
  bool_ : bool;
  float_ : bool;
  int_ : bool;
  uint_ : bool;
  sint_ : bool;
  object_ : bool
}.

Definition nothing_seen : seen :=
  mkSeen false false false false false false false false.

(** The scan of a column.  It stops at the first [str], and at an [int]
    outside the 64-bit ranges unless a [None] came before; an [int]
    with no double raises. *)
Fixpoint scan (s : seen) (col : list pyval) : outcome seen :=
  match col with
  | [] => Returned s
  | val :: rest =>
      match val with
      | PyNone =>
          scan (mkSeen true (nan_ s) (bool_ s) (float_ s) (int_ s) (uint_ s)
                  (sint_ s) (object_ s)) rest
      | PyFloat f =>
          if is_nan f
          then scan (mkSeen (null_ s) true (bool_ s) (float_ s) (int_ s)
                       (uint_ s) (sint_ s) (object_ s)) rest
          else scan (mkSeen (null_ s) (nan_ s) (bool_ s) true (int_ s)
                       (uint_ s) (sint_ s) (object_ s)) rest
      | PyBool _ =>
          scan (mkSeen (null_ s) (nan_ s) true (float_ s) (int_ s) (uint_ s)
                  (sint_ s) (object_ s)) rest
      | PyInt z =>
          if float_overflows z
          then Raised (OverflowError "int too large to convert to float")
          else if null_ s
          then scan (mkSeen (null_ s) (nan_ s) (bool_ s) (float_ s) true
                       (uint_ s) (sint_ s) (object_ s)) rest
          else
            let uint := uint_ s || bool_decide (INT64_MAX < z <= UINT64_MAX)%Z in
            let sint := sint_ s || bool_decide (INT64_MIN <= z < 0)%Z in
            if (uint && sint) || bool_decide (UINT64_MAX < z)%Z
               || bool_decide (z < INT64_MIN)%Z
            then Returned (mkSeen (null_ s) (nan_ s) (bool_ s) (float_ s) true
                             uint sint true)
            else scan (mkSeen (null_ s) (nan_ s) (bool_ s) (float_ s) true
                         uint sint (object_ s)) rest
      | PyStr _ =>
          Returned (mkSeen (null_ s) (nan_ s) (bool_ s) (float_ s) (int_ s)
                      (uint_ s) (sint_ s) true)
      end
  end.

(** The column becomes a column of doubles: it holds numbers only and
    has a [float], or an [int] beside a missing value.  Every other
    column keeps its values. *)
Definition to_floats (s : seen) : bool :=
  negb (object_ s) && negb (bool_ s) &&
  (if null_ s || nan_ s then float_ s || int_ s || nan_ s else float_ s).

(** A value in a column of doubles: [None] is [NaN]. *)
Definition as_float (v : pyval) : pyval :=
  match v with
  | PyInt z => PyFloat (float_of_int z)
  | PyNone => PyFloat S754_nan
  | _ => v
  end.

(** Column [j] of the rows. *)
Definition column (j : nat) (rows : list row) : list pyval :=
  (fun r => nth j r PyNone) <$> rows.

(** Which of the columns [js] become columns of doubles. *)
Fixpoint column_dtypes (rows : list row) (js : list nat) : outcome (list bool) :=
  match js with
  | [] => Returned []
  | j :: js' =>
      match scan nothing_seen (column j rows) with
      | Raised e => Raised e
      | Returned s =>
          match column_dtypes rows js' with
          | Raised e => Raised e
          | Returned floats => Returned (to_floats s :: floats)
          end
      end
  end.

Definition convert_row (floats : list bool) (r : row) : row :=
  zip_with (fun (b : bool) v => if b then as_float v else v) floats r.

(** [convert_object_array]: the type of every column is inferred, and
    its values converted. *)
Definition convert_object_array (w : nat) (rows : list row)
  : outcome (list row) :=
  match column_dtypes rows (seq 0 w) with
  | Raised e => Raised e
  | Returned floats => Returned (convert_row floats <$> rows)
  end.

(** [pd.DataFrame(result, columns=names)] for a non-empty list of
    tuples: [pandas] refuses a list of labels whose length is not the
    width of the data ([ValueError]), then infers the type of each
    column. *)
Definition pd_DataFrame (result : list row) (names : list pyval)
  : outcome DataFrame :=
  let w := data_width result in
  if decide (length names = w) then
    match convert_object_array w (pad_row w <$> result) with
    | Returned rows => Returned (mkDataFrame names rows)
    | Raised e => Raised e
    end
  else
    Raised (ValueError (pretty (length names) +:+ " columns passed, passed data had "
                        +:+ pretty w +:+ " columns")).

(** The positions of the columns labelled [label]. *)
Definition label_positions (cols : list pyval) (label : string) : list nat :=
  (fix go (i : nat) (cs : list pyval) : list nat :=
     match cs with
     | [] => []
     | c :: cs' =>
         if decide (c = PyStr label) then i :: go (S i) cs' else go (S i) cs'
     end) 0%nat cols.

(** [df[labels]] with a list of labels: the columns of these labels, in
    the order of [labels]; a label that is no column raises [KeyError],
    whose [str] is the [repr] of the message, here in double quotes. *)
Definition df_getitem (df : DataFrame) (labels : list string)
  : outcome DataFrame :=
  let missing :=
    filter (fun l => label_positions (columns df) l = []) labels in
  if decide (missing = []) then
    let pos := labels ≫= label_positions (columns df) in
    Returned (mkDataFrame
                ((fun i => nth i (columns df) PyNone) <$> pos)
                ((fun r => (fun i => nth i r PyNone) <$> pos) <$> data df))
  else if decide (missing = labels) then
    Raised (PyExc "KeyError"
              (dquote +:+ "None of [Index(" +:+ repr_list labels
               +:+ ", dtype='object')] are in the [columns]" +:+ dquote) true)
  else
    Raised (PyExc "KeyError"
              (dquote +:+ repr_list missing +:+ " not in index" +:+ dquote)
              true).

(** [df.rename(columns=mapping)] *)
Definition df_rename (mapping : list (string * string)) (df : DataFrame)
  : DataFrame :=
  let new_label (c : pyval) : pyval :=
    match c with
    | PyStr s =>
        match list_find (fun kv => kv.1 = s) mapping with
        | Some (_, (_, s')) => PyStr s'
        | None => c
        end
    | _ => c
    end in
  mkDataFrame (new_label <$> columns df) (data df).

(** *** The type inference in words *)

(** A value that fits a 64-bit signed integer column (every value that
    is no [int] does). *)
Definition in_int64 (v : pyval) : Prop :=
  match v with
  | PyInt z => (INT64_MIN <= z <= INT64_MAX)%Z
  | _ => True
  end.

Definition is_none (v : pyval) : bool :=
  match v with PyNone => true | _ => false end.
Definition is_bool (v : pyval) : bool :=
  match v with PyBool _ => true | _ => false end.
Definition is_int (v : pyval) : bool :=
  match v with PyInt _ => true | _ => false end.
Definition is_float (v : pyval) : bool :=
  match v with PyFloat _ => true | _ => false end.
Definition is_str (v : pyval) : bool :=
  match v with PyStr _ => true | _ => false end.

(** A column that the frame holds as doubles: without [str] and without
    [bool], and with a [float], or with an [int] and a [None]. *)
Definition floated (col : list pyval) : bool :=
  forallb (fun v => negb (is_str v)) col && negb (existsb is_bool col) &&
  (existsb is_float col || (existsb is_none col && existsb is_int col)).

(** The rows as a frame of [w] columns holds them: in a floated column
    every [int] is the double of its value and every [None] is [NaN];
    the other cells are the fetched values. *)
Definition coerced_rows (w : nat) (rows : list row) : list row :=
  convert_row ((fun j => floated (column j rows)) <$> seq 0 w) <$> rows.

(** A value that is neither [None] nor a [float]. *)
Definition plain (v : pyval) : bool := negb (is_none v) && negb (is_float v).

(** ** Responses *)

(** Modelled from the spec: [RESPONSE_TYPE] of
    [mindsdb.integrations.libs.response], which is not among the
    sources; the three variants of the response envelope. *)
Inductive RESPONSE_TYPE : Type := TABLE | OK | ERROR.

Global Instance RESPONSE_TYPE_eq_dec : EqDecision RESPONSE_TYPE.
Proof. solve_decision. Defined.

(** Modelled from the spec: [HandlerResponse] of
    [mindsdb.integrations.libs.response], which is not among the
    sources; an envelope with the tag of its variant, the data frame of
    a [TABLE] and the message of an [ERROR], both [None] unless the
    constructor is given them. *)
Record Response : Type := mkResponse {
  resp_type : RESPONSE_TYPE;
  data_frame : option DataFrame;
  error_message : option string
}.

Global Instance Response_eq_dec : EqDecision Response.
Proof. solve_decision. Defined.

(** Modelled from the spec: [HandlerStatusResponse] of
    [mindsdb.integrations.libs.response], which is not among the
    sources; a status with a boolean flag and a message. *)
Record StatusResponse : Type := mkStatusResponse {
  success : bool;
  status_error_message : option string
}.

Global Instance StatusResponse_eq_dec : EqDecision StatusResponse.
Proof. solve_decision. Defined.

(** ** The driver *)

(** The arguments of [pydruid.db.connect]. *)
Record connect_args : Type := mkConnectArgs {
  arg_host : pyval;
  arg_port : pyval;
  arg_path : pyval;
  arg_scheme : pyval;
  arg_user : pyval;
  arg_password : pyval
}.

Global Instance connect_args_eq_dec : EqDecision connect_args.
Proof. solve_decision. Defined.

(** The DB-API driver [pydruid.db], over the connection objects [conn],
    the cursor objects [cursor] and the state [dstate] of everything
    behind it (sockets, the Druid server).  A call returns or raises and
    leaves a new state; [cursor.description] is an attribute, [None]
    until the driver has seen a result row. *)
Class Driver (conn cursor dstate : Type) : Type := {
  drv_connect : connect_args -> dstate -> outcome conn * dstate;
  conn_cursor : conn -> dstate -> outcome cursor * dstate;
  conn_commit : conn -> dstate -> outcome () * dstate;
  conn_close : conn -> dstate -> outcome () * dstate;
  cursor_execute : cursor -> string -> dstate -> outcome () * dstate;
  cursor_fetchall : cursor -> dstate -> outcome (list row) * dstate;
  cursor_description : cursor -> dstate -> option (list descriptor);
  cursor_close : cursor -> dstate -> outcome () * dstate
}.

(** A call made to the driver. *)
Inductive call (conn cursor : Type) : Type :=
  | Call_connect (args : connect_args)
  | Call_cursor (c : conn)
  | Call_commit (c : conn)
  | Call_close (c : conn)
  | Call_execute (cur : cursor) (query : string)
  | Call_fetchall (cur : cursor)
  | Call_cursor_close (cur : cursor).
Arguments Call_connect {conn cursor} args.
Arguments Call_cursor {conn cursor} c.
Arguments Call_commit {conn cursor} c.
Arguments Call_close {conn cursor} c.
Arguments Call_execute {conn cursor} cur query.
Arguments Call_fetchall {conn cursor} cur.
Arguments Call_cursor_close {conn cursor} cur.

Definition is_connect {conn cursor} (c : call conn cursor) : bool :=
  match c with Call_connect _ => true | _ => false end.
Definition is_commit {conn cursor} (c : call conn cursor) : bool :=
  match c with Call_commit _ => true | _ => false end.
Definition is_close {conn cursor} (c : call conn cursor) : bool :=
  match c with Call_close _ => true | _ => false end.

(** ** The handler object and the world *)

(** The attributes of a [DruidHandler] that its methods read or write
    ([parser] and [kwargs] are stored and never used). *)
Record DruidHandler (conn : Type) : Type := mkDruidHandler {
  name : string;
  dialect : string;
  connection_data : dict;
  connection : option conn;
  is_connected : bool
}.
Arguments mkDruidHandler {conn} _ _ _ _ _.
Arguments name {conn} _.
Arguments dialect {conn} _.
Arguments connection_data {conn} _.
Arguments connection {conn} _.
Arguments is_connected {conn} _.

Definition optional_parameters : list string := ["user"; "password"].

(** [DruidHandler.__init__]: the defaults are written into the dict
    that was passed, which becomes [self.connection_data]; with
    [connection_data=None] the first membership test raises.  The
    constructor of the base class [DatabaseHandler] keeps the name. *)
Definition init {conn : Type} (name : string) (connection_data : option dict)
  : outcome (DruidHandler conn) :=
  match connection_data with
  | None => Raised (TypeError "argument of type 'NoneType' is not iterable")
  | Some connection_data =>
      let connection_data :=
        foldl (fun d parameter => setdefault parameter PyNone d)
              connection_data optional_parameters in
      let connection_data :=
        setdefault "path" (PyStr "/druid/v2/sql/") connection_data in
      let connection_data := setdefault "scheme" (PyStr "http") connection_data in
      Returned (mkDruidHandler name "druid" connection_data None false)
  end.

(** Everything a method can read or change. *)
Record world (conn cursor dstate : Type) : Type := mkWorld {
  self : DruidHandler conn;
  drv : dstate;
  calls : list (call conn cursor);
  logged : list string
}.
Arguments mkWorld {conn cursor dstate} _ _ _ _.
Arguments self {conn cursor dstate} _.
Arguments drv {conn cursor dstate} _.
Arguments calls {conn cursor dstate} _.
Arguments logged {conn cursor dstate} _.

(** ** The monad of the methods *)

Definition M (conn cursor dstate : Type) (A : Type) : Type :=
  world conn cursor dstate -> outcome A * world conn cursor dstate.

Section monad.
Context {conn cursor dstate : Type}.
Local Abbreviation M := (M conn cursor dstate).
Local Abbreviation world := (world conn cursor dstate).

Definition ret {A} (a : A) : M A := fun w => (Returned a, w).

Definition bind {A B} (m : M A) (k : A -> M B) : M B := fun w =>
  match m w with
  | (Returned a, w') => k a w'
  | (Raised e, w') => (Raised e, w')
  end.

Definition raise {A} (e : pyexc) : M A := fun w => (Raised e, w).

(** The value of a pure expression that may raise. *)
Definition eval {A} (o : outcome A) : M A := fun w => (o, w).

(** [try: m  except Exception as e: handler e] *)
Definition try_except {A} (m : M A) (handler : pyexc -> M A) : M A := fun w =>
  match m w with
  | (Returned a, w') => (Returned a, w')
  | (Raised e, w') =>
      if exc_is_Exception e then handler e w' else (Raised e, w')
  end.

(** [try: m  finally: fin]: the [finally] block runs whatever [m] did
    and sees its outcome; an exception of the block replaces it. *)
Definition try_finally {A} (m : M A) (fin : outcome A -> M ()) : M A := fun w =>
  match m w with
  | (o, w') =>
      match fin o w' with
      | (Returned _, w'') => (o, w'')
      | (Raised e, w'') => (Raised e, w'')
      end
  end.

(** [self.attr] *)
Definition get_attr {A} (attr : DruidHandler conn -> A) : M A := fun w =>
  (Returned (attr (self w)), w).

(** [self.connection = c] *)
Definition set_connection (c : option conn) : M () := fun w =>
  (Returned (),
   mkWorld (mkDruidHandler (name (self w)) (dialect (self w))
              (connection_data (self w)) c (is_connected (self w)))
           (drv w) (calls w) (logged w)).

(** [self.is_connected = b] *)
Definition set_is_connected (b : bool) : M () := fun w =>
  (Returned (),
   mkWorld (mkDruidHandler (name (self w)) (dialect (self w))
              (connection_data (self w)) (connection (self w)) b)
           (drv w) (calls w) (logged w)).

(** A call to the driver: it is recorded, then it acts on the driver's
    state. *)
Definition driver_call {A} (c : call conn cursor)
    (op : dstate -> outcome A * dstate) : M A := fun w =>
  match op (drv w) with
  | (o, d) => (o, mkWorld (self w) d (calls w ++ [c]) (logged w))
  end.

(** Modelled from the spec: the logger of [mindsdb.utilities.log],
    which is not among the sources; [log.logger.error(msg)] records the
    message and touches neither the handler nor the driver. *)
Definition log_error (msg : string) : M () := fun w =>
  (Returned (), mkWorld (self w) (drv w) (calls w) (logged w ++ [msg])).

(** [obj.attr(...)] where [obj] may be [None]. *)
Definition method {O A} (obj : option O) (attr : string) (f : O -> M A) : M A :=
  match obj with
  | Some o => f o
  | None => raise (NoneType_has_no_attribute attr)
  end.
End monad.

Declare Scope py_scope.
Delimit Scope py_scope with py.
Notation "x <- m ;; k" := (bind m (fun x => k))
  (at level 100, m at next level, right associativity) : py_scope.
Notation "m ;; k" := (bind m (fun _ => k))
  (at level 100, right associativity) : py_scope.

Local Open Scope py_scope.

(** ** The methods of [DruidHandler] *)

Section handler.
Context {conn cursor dstate : Type} {driver : Driver conn cursor dstate}.
Local Abbreviation M := (M conn cursor dstate).
Local Abbreviation world := (world conn cursor dstate).

(** The keyword arguments of the call of [pydruid.db.connect], read
    from [self.connection_data] in the order they are written. *)
Definition connect_arguments (connection_data : dict) : outcome connect_args :=
  match getitem connection_data "host" with
  | Raised e => Raised e
  | Returned host =>
  match getitem connection_data "port" with
  | Raised e => Raised e
  | Returned port =>
  match getitem connection_data "path" with
  | Raised e => Raised e
  | Returned path =>
  match getitem connection_data "scheme" with
  | Raised e => Raised e
  | Returned scheme =>
  match getitem connection_data "user" with
  | Raised e => Raised e
  | Returned user =>
  match getitem connection_data "password" with
  | Raised e => Raised e
  | Returned password =>
      Returned (mkConnectArgs host port path scheme user password)
  end end end end end end.

(** [DruidHandler.connect] *)
Definition connect : M (option conn) :=
  connected <- get_attr is_connected ;;
  if connected then get_attr connection
  else
    connection_data <- get_attr connection_data ;;
    args <- eval (connect_arguments connection_data) ;;
    c <- driver_call (Call_connect args) (drv_connect args) ;;
    set_connection (Some c) ;;
    set_is_connected true ;;
    get_attr connection.

(** [DruidHandler.disconnect]: [None] from the bare [return], else the
    new value of the flag. *)
Definition disconnect : M (option bool) :=
  connected <- get_attr is_connected ;;
  if negb connected then ret None
  else
    c <- get_attr connection ;;
    method c "close" (fun c => driver_call (Call_close c) (conn_close c)) ;;
    set_is_connected false ;;
    connected <- get_attr is_connected ;;
    ret (Some connected).

(** [DruidHandler.__del__] *)
Definition del : M () :=
  connected <- get_attr is_connected ;;
  if connected then disconnect ;; ret () else ret ().

(** [DruidHandler.check_connection] *)
Definition check_connection : M StatusResponse :=
  let response := mkStatusResponse false None in
  need_to_close <- get_attr (fun s => negb (is_connected s)) ;;
  try_finally
    (try_except
       (connect ;;
        ret (mkStatusResponse true (status_error_message response)))
       (fun e =>
          log_error ("Error connecting to Pinot, " +:+ exc_str e +:+ "!") ;;
          ret (mkStatusResponse (success response) (Some (exc_str e)))))
    (fun o =>
       let response :=
         match o with Returned r => r | Raised _ => response end in
       (if success response && need_to_close
        then disconnect ;; ret () else ret ()) ;;
       connected <- get_attr is_connected ;;
       if negb (success response) && connected
       then set_is_connected false else ret ()).

(** The body of the [try] block of [native_query]. *)
Definition run_query (connection : option conn) (cur : cursor)
    (query : string) : M Response :=
  driver_call (Call_execute cur query) (cursor_execute cur query) ;;
  result <- driver_call (Call_fetchall cur) (cursor_fetchall cur) ;;
  match result with
  | _ :: _ =>
      description <- (fun w => (Returned (cursor_description cur (drv w)), w)) ;;
      names <- match description with
               | Some description => eval (column_names description)
               | None => raise (TypeError "'NoneType' object is not iterable")
               end ;;
      df <- eval (pd_DataFrame result names) ;;
      ret (mkResponse TABLE (Some df) None)
  | [] =>
      method connection "commit"
        (fun c => driver_call (Call_commit c) (conn_commit c)) ;;
      ret (mkResponse OK None None)
  end.

(** [DruidHandler.native_query] *)
Definition native_query (query : string) : M Response :=
  need_to_close <- get_attr (fun s => negb (is_connected s)) ;;
  connection <- connect ;;
  cur <- method connection "cursor"
           (fun c => driver_call (Call_cursor c) (conn_cursor c)) ;;
  response <-
    try_except
      (run_query connection cur query)
      (fun e =>
         log_error ("Error running query: " +:+ query +:+ " on Pinot!") ;;
         ret (mkResponse ERROR None (Some (exc_str e)))) ;;
  driver_call (Call_cursor_close cur) (cursor_close cur) ;;
  (if need_to_close then disconnect ;; ret () else ret ()) ;;
  ret response.

(** The query text of [get_tables]. *)
Definition tables_query : string :=
  newline +:+ "            SELECT *"
  +:+ newline +:+ "            FROM INFORMATION_SCHEMA.TABLES"
  +:+ newline +:+ "        ".

(** [df[labels]] where [df] may be [None]. *)
Definition subscript (df : option DataFrame) (labels : list string)
  : outcome DataFrame :=
  match df with
  | Some df => df_getitem df labels
  | None => Raised (TypeError "'NoneType' object is not subscriptable")
  end.

(** [DruidHandler.get_tables] *)
Definition get_tables : M Response :=
  result <- native_query tables_query ;;
  let df := data_frame result in
  df <- eval (subscript df ["TABLE_NAME"; "TABLE_TYPE"]) ;;
  ret (mkResponse (resp_type result)
         (Some (df_rename [("TABLE_NAME", "table_name");
                           ("TABLE_TYPE", "table_type")] df))
         (error_message result)).

(** The query text of [get_columns]. *)
Definition columns_query (table_name : string) : string :=
  newline +:+ "            SELECT *"
  +:+ newline +:+ "            FROM INFORMATION_SCHEMA.COLUMNS"
  +:+ newline +:+ "            WHERE " +:+ dquote +:+ "TABLE_SCHEMA" +:+ dquote
  +:+ " = 'druid' AND " +:+ dquote +:+ "TABLE_NAME" +:+ dquote +:+ " = '"
  +:+ table_name +:+ "'"
  +:+ newline +:+ "        ".

(** [DruidHandler.get_columns] *)
Definition get_columns (table_name : string) : M Response :=
  result <- native_query (columns_query table_name) ;;
  let df := data_frame result in
  df <- eval (subscript df ["COLUMN_NAME"; "DATA_TYPE"]) ;;
  ret (mkResponse (resp_type result)
         (Some (df_rename [("COLUMN_NAME", "column_name");
                           ("DATA_TYPE", "data_type")] df))
         (error_message result)).

(** ** Vocabulary of the specifications *)

(** Execution of [query] on the cursor [cur] of the connection [c]
    raises [e]: in [cursor.execute], in [cursor.fetchall], or, when no
    row was fetched, in [connection.commit].  The driver goes from state
    [d] to state [d']. *)
Inductive execution_raises (c : conn) (cur : cursor) (query : string)
    (d : dstate) (e : pyexc) (d' : dstate) : Prop :=
  | execute_raises :
      cursor_execute cur query d = (Raised e, d') ->
      execution_raises c cur query d e d'
  | fetchall_raises d1 :
      cursor_execute cur query d = (Returned (), d1) ->
      cursor_fetchall cur d1 = (Raised e, d') ->
      execution_raises c cur query d e d'
  | commit_raises d1 d2 :
      cursor_execute cur query d = (Returned (), d1) ->
      cursor_fetchall cur d1 = (Returned [], d2) ->
      conn_commit c d2 = (Raised e, d') ->
      execution_raises c cur query d e d'.

(** The clean-up at the end of [native_query] goes through: the cursor
    closes and, when the call opened the connection itself, so does the
    connection. *)
Definition cleanup_returns (need_to_close : bool) (c : conn) (cur : cursor)
    (d : dstate) : Prop :=
  exists d1, cursor_close cur d = (Returned (), d1) /\
    (need_to_close = true -> exists d2, conn_close c d1 = (Returned (), d2)).

(** The world after [connect] has opened the connection [c] in the
    world [w]. *)
Definition opened (w : world) (args : connect_args) (c : conn) (d : dstate)
  : world :=
  mkWorld (mkDruidHandler (name (self w)) (dialect (self w))
             (connection_data (self w)) (Some c) true)
          d (calls w ++ [Call_connect args]) (logged w).

(** The world after [disconnect] has closed the connection [c] in the
    world [w]. *)
Definition closed (w : world) (c : conn) (d : dstate) : world :=
  mkWorld (mkDruidHandler (name (self w)) (dialect (self w))
             (connection_data (self w)) (connection (self w)) false)
          d (calls w ++ [Call_close c]) (logged w).

(** From [w] to [w'] the handler object is untouched and the driver was
    asked neither to open nor to close a connection. *)
Definition connection_kept (w : world) (s : DruidHandler conn)
    (l : list (call conn cursor)) : Prop :=
  s = self w /\
  exists new, l = calls w ++ new /\
    List.filter is_connect new = [] /\ List.filter is_close new = [].

Definition keeps_connection (w w' : world) : Prop :=
  connection_kept w (self w') (calls w').
End handler.

(** ** A scripted driver *)

(** A driver in the manner of a test double: connections and cursors
    are numbers, and the state holds what each call is to do. *)
Record script : Type := mkScript {
  on_connect : outcome nat;
  on_cursor : outcome nat;
  on_execute : outcome ();
  on_fetchall : outcome (list row);
  the_description : option (list descriptor);
  on_commit : outcome ();
  on_cursor_close : outcome ();
  on_close : outcome ()
}.

Global Instance scripted_driver : Driver nat nat script := {|
  drv_connect := fun _ s => (on_connect s, s);
  conn_cursor := fun _ s => (on_cursor s, s);
  conn_commit := fun _ s => (on_commit s, s);
  conn_close := fun _ s => (on_close s, s);
  cursor_execute := fun _ _ s => (on_execute s, s);
  cursor_fetchall := fun _ s => (on_fetchall s, s);
  cursor_description := fun _ s => the_description s;
  cursor_close := fun _ s => (on_cursor_close s, s)
|}.

(** A server that answers every query with the rows [rows] under the
    descriptors [description]. *)
Definition serving (description : list descriptor) (rows : list row) : script :=
  mkScript (Returned 1%nat) (Returned 7%nat) (Returned ()) (Returned rows)
    (match rows with [] => None | _ => Some description end)
    (Returned ()) (Returned ()) (Returned ()).

(** A server that rejects every query. *)
Definition rejecting (e : pyexc) : script :=
  mkScript (Returned 1%nat) (Returned 7%nat) (Raised e) (Returned [])
    None (Returned ()) (Returned ()) (Returned ()).

(** A server whose connections hand out no cursor. *)
Definition without_cursor (e : pyexc) : script :=
  mkScript (Returned 1%nat) (Raised e) (Returned ()) (Returned [])
    None (Returned ()) (Returned ()) (Returned ()).

(** A server that cannot be reached. *)
Definition unreachable (e : pyexc) : script :=
  mkScript (Raised e) (Returned 7%nat) (Returned ()) (Returned [])
    None (Returned ()) (Returned ()) (Returned ()).

(** The errors these servers raise in the examples. *)
Definition query_error : pyexc :=
  PyExc "ProgrammingError" "Table not found" true.
Definition connection_refused : pyexc :=
  PyExc "ConnectionError" "Connection refused" true.

(** The answer of the information schema to the query of [get_tables]
    in the examples: one table. *)
Definition tables_description : list descriptor :=
  [[PyStr "TABLE_NAME"; PyStr "STRING"]; [PyStr "TABLE_TYPE"; PyStr "STRING"]].
Definition tables_rows : list row := [[PyStr "t1"; PyStr "TABLE"]].

(** A result set with a missing number: the first column holds an [int]
    and a [None]. *)
Definition edits_description : list descriptor :=
  [[PyStr "added"; PyStr "LONG"]; [PyStr "page"; PyStr "STRING"]].
Definition edits_rows : list row :=
  [[PyInt 1; PyStr "x"]; [PyNone; PyStr "y"]].

(** A configuration with the two required keys only, the host and port
    of [connection_args_example]. *)
Definition example_config : dict :=
  {[ "host" := PyStr "localhost"; "port" := PyInt 8888 ]}.

(** The arguments [connect] passes to the driver under it. *)
Definition example_args : connect_args :=
  mkConnectArgs (PyStr "localhost") (PyInt 8888) (PyStr "/druid/v2/sql/")
    (PyStr "http") PyNone PyNone.

(** A handler fresh from [__init__] (which returns for every dict; the
    second branch is never taken). *)
Definition new_handler (config : dict) : DruidHandler nat :=
  match init "druid_datasource" (Some config) with
  | Returned h => h
  | Raised _ => mkDruidHandler "" "" config None false
  end.

(** The same handler after a successful [connect]. *)
Definition connected_handler (config : dict) (c : nat) : DruidHandler nat :=
  let h := new_handler config in
  mkDruidHandler (name h) (dialect h) (connection_data h) (Some c) true.

(** The world at the start of a test: no call made, nothing logged. *)
Definition start (h : DruidHandler nat) (s : script) : world nat nat script :=
  mkWorld h s [] [].

(** ** Vocabulary of the further properties *)

Definition is_execute {conn cursor} (c : call conn cursor) : bool :=
  match c with Call_execute _ _ => true | _ => false end.

(** A handler that says it is connected holds a connection. *)
Definition handle_present {conn : Type} (h : DruidHandler conn) : Prop :=
  is_connected h = true -> is_Some (connection h).

(** Every row of the frame has one field per column. *)
Definition rectangular (df : DataFrame) : Prop :=
  Forall (fun r => length r = length (columns df)) (data df).

(** The calls on the cursor [cur] and the connection [c] that the [try]
    block of [native_query] can have made when the response is [r]. *)
Definition execution_calls {conn cursor : Type} (c : conn) (cur : cursor)
    (query : string) (r : Response) : list (list (call conn cursor)) :=
  match resp_type r with
  | TABLE => [[Call_execute cur query; Call_fetchall cur]]
  | OK => [[Call_execute cur query; Call_fetchall cur; Call_commit c]]
  | ERROR => [[Call_execute cur query];
              [Call_execute cur query; Call_fetchall cur];
              [Call_execute cur query; Call_fetchall cur; Call_commit c]]
  end.

(** The message [native_query] logs when the execution raises. *)
Definition query_error_message (query : string) : string :=
  "Error running query: " +:+ query +:+ " on Pinot!".

(** The frame [get_tables] and [get_columns] make of a frame whose
    columns [i] and [j] carry the two labels they ask for. *)
Definition two_columns (name1 name2 : string) (i j : nat) (df : DataFrame)
  : DataFrame :=
  mkDataFrame [PyStr name1; PyStr name2]
    ((fun r => [nth i r PyNone; nth j r PyNone]) <$> data df).

(** From [w] to [w'] the configuration is the same, and a handler that
    held a connection whenever it said so still does. *)
Definition handler_kept {conn cursor dstate : Type}
    (w w' : world conn cursor dstate) : Prop :=
  connection_data (self w') = connection_data (self w) /\
  (handle_present (self w) -> handle_present (self w')).

(** One call of a method of the handler, whatever its arguments and its
    outcome, takes the world [w] to the world [w']. *)
Inductive method_call {conn cursor dstate : Type}
    {driver : Driver conn cursor dstate} (w w' : world conn cursor dstate)
  : Prop :=
  | call_connect o : connect w = (o, w') -> method_call w w'
  | call_disconnect o : disconnect w = (o, w') -> method_call w w'
  | call_del o : del w = (o, w') -> method_call w w'
  | call_check_connection o : check_connection w = (o, w') -> method_call w w'
  | call_native_query query o :
      native_query query w = (o, w') -> method_call w w'
  | call_get_tables o : get_tables w = (o, w') -> method_call w w'
  | call_get_columns table_name o :
      get_columns table_name w = (o, w') -> method_call w w'.

(** A server whose connections cannot be closed. *)
Definition stuck_open (e : pyexc) : script :=
  mkScript (Returned 1%nat) (Returned 7%nat) (Returned ()) (Returned [])
    None (Returned ()) (Returned ()) (Raised e).

(** A server that rejects every query with [e] and whose cursors raise
    [e'] when they are closed. *)
Definition cursor_stuck (e e' : pyexc) : script :=
  mkScript (Returned 1%nat) (Returned 7%nat) (Raised e) (Returned [])
    None (Returned ()) (Raised e') (Returned ()).

(** The error of a close that fails in the examples. *)
Definition close_failed : pyexc := PyExc "Error" "already closed" true.

(** The answer of the information schema to the query of [get_columns]
    in the examples: the schema and table columns come first. *)
Definition columns_description : list descriptor :=
  [[PyStr "TABLE_SCHEMA"]; [PyStr "TABLE_NAME"]; [PyStr "COLUMN_NAME"];
   [PyStr "DATA_TYPE"]].
Definition columns_rows : list row :=
  [[PyStr "druid"; PyStr "t1"; PyStr "__time"; PyStr "TIMESTAMP"];
   [PyStr "druid"; PyStr "t1"; PyStr "page"; PyStr "VARCHAR"]].

(** * Verification *)

(** Unfolds the monad under a method applied to a world. *)
Ltac run :=
  cbv [bind ret raise eval try_except try_finally get_attr set_connection
       set_is_connected driver_call log_error method negb andb];
  cbn [fst snd self drv calls logged name dialect connection_data connection
       is_connected success status_error_message].

(** Rewrites with the outcome of a call and goes on. *)
Tactic Notation "given" constr(H) := rewrite H; run.

(** ** The connection manager *)

Section connection_manager.
Context {conn cursor dstate : Type} {driver : Driver conn cursor dstate}.
Local Abbreviation M := (M conn cursor dstate).
Local Abbreviation world := (world conn cursor dstate).
Implicit Types (w : world) (c : conn) (cur : cursor) (d : dstate).

Lemma connect_connected w :
  is_connected (self w) = true ->
  connect w = (Returned (connection (self w)), w).
Proof. intros H. unfold connect. run. given H. reflexivity. Qed.

Lemma connect_opens w args c d :
  is_connected (self w) = false ->
  connect_arguments (connection_data (self w)) = Returned args ->
  drv_connect args (drv w) = (Returned c, d) ->
  connect w = (Returned (Some c), opened w args c d).
Proof.
  intros H Hargs Hopen. unfold connect. run.
  given H. given Hargs. given Hopen. reflexivity.
Qed.

(** A call of [connect] that returns found the handler connected, or
    opened a connection. *)
Lemma connect_inv w h w1 :
  connect w = (Returned h, w1) ->
  (is_connected (self w) = true /\ h = connection (self w) /\ w1 = w) \/
  (is_connected (self w) = false /\
   exists args c d,
     connect_arguments (connection_data (self w)) = Returned args /\
     drv_connect args (drv w) = (Returned c, d) /\
     h = Some c /\ w1 = opened w args c d).
Proof.
  unfold connect. run.
  destruct (is_connected (self w)) eqn:Hconn.
  - intros [= <- <-]. left. done.
  - destruct (connect_arguments _) as [args|e] eqn:Hargs; [|done].
    destruct (drv_connect args (drv w)) as [[c|e] d] eqn:Hopen; [|done].
    intros [= <- <-]. right. split; [done|]. by exists args, c, d.
Qed.

(** After it, the handler is connected and holds the handle. *)
Lemma connect_post w c w1 :
  connect w = (Returned (Some c), w1) ->
  is_connected (self w1) = true /\ connection (self w1) = Some c /\
  logged w1 = logged w /\
  exists pre, calls w1 = calls w ++ pre /\
    pre = (if is_connected (self w) then [] else List.filter is_connect pre) /\
    List.filter is_commit pre = [] /\ List.filter is_close pre = [].
Proof.
  intros H. apply connect_inv in H as [(Hc & Hh & ->)|(Hc & args & c' & d & _ & _ & Hh & ->)].
  - rewrite Hc. split_and!; try done. exists []. by rewrite app_nil_r.
  - rewrite Hc. injection Hh as ->. split_and!; try done.
    by exists [Call_connect args].
Qed.

Lemma disconnect_disconnected w :
  is_connected (self w) = false -> disconnect w = (Returned None, w).
Proof. intros H. unfold disconnect. run. given H. reflexivity. Qed.

Lemma disconnect_closes w c d :
  is_connected (self w) = true ->
  connection (self w) = Some c ->
  conn_close c (drv w) = (Returned (), d) ->
  disconnect w = (Returned (Some false), closed w c d).
Proof.
  intros H Hc Hclose. unfold disconnect. run.
  given H. given Hc. given Hclose. reflexivity.
Qed.

(** Whenever [disconnect] returns, the handler is disconnected. *)
Lemma disconnect_post w r w' :
  disconnect w = (Returned r, w') -> is_connected (self w') = false.
Proof.
  unfold disconnect. run.
  destruct (is_connected (self w)) eqn:Hconn; run.
  - destruct (connection (self w)) as [c|]; [|done].
    destruct (conn_close c (drv w)) as [[[]|e] d]; [|done].
    by intros [= <- <-].
  - by intros [= <- <-].
Qed.
(** C8: [connect] is idempotent.  Whenever a call of [connect] returns
    the handle [h], a second call returns the same [h] and changes
    nothing; the two calls in sequence made exactly one call to the
    driver's [connect] when the handler was disconnected, and on a
    connected handler the first call already returned the existing
    handle and changed nothing. *)
Theorem connect_idempotent w h w1 :
  connect w = (Returned h, w1) ->
  connect w1 = (Returned h, w1) /\
  (h1 <- connect ;; h2 <- connect ;; ret (h1, h2)) w = (Returned (h, h), w1) /\
  (is_connected (self w) = false ->
     exists args, calls w1 = calls w ++ [Call_connect args]) /\
  (is_connected (self w) = true -> h = connection (self w) /\ w1 = w).
Proof.
  intros H.
  assert (Hagain : connect w1 = (Returned h, w1)).
  { destruct (connect_inv _ _ _ H)
      as [(Hc & -> & ->)|(Hc & args & c & d & _ & _ & -> & ->)].
    - by apply connect_connected.
    - by rewrite connect_connected. }
  split; [exact Hagain|]. split.
  { run. rewrite H. by rewrite Hagain. }
  destruct (connect_inv _ _ _ H)
    as [(Hc & -> & ->)|(Hc & args & c & d & _ & _ & -> & ->)].
  - split; [by rewrite Hc|done].
  - split; [by exists args|by rewrite Hc].
Qed.

(** C10: on a handler whose flag says connected, [check_connection]
    reports success without an error message and changes nothing in the
    world: the driver is not called and its state plays no part, and
    the handler stays connected. *)
Theorem check_connection_connected w :
  is_connected (self w) = true ->
  check_connection w = (Returned (mkStatusResponse true None), w).
Proof.
  intros H. unfold check_connection. run.
  rewrite (connect_connected w H). run. given H. reflexivity.
Qed.

(** C7: on a disconnected handler whose probing [connect] succeeds (and
    whose fresh connection closes), [check_connection] reports success
    and leaves the handler disconnected, the connection it opened
    closed. *)
Theorem check_connection_probe w c w1 d :
  is_connected (self w) = false ->
  connect w = (Returned (Some c), w1) ->
  conn_close c (drv w1) = (Returned (), d) ->
  check_connection w = (Returned (mkStatusResponse true None), closed w1 c d) /\
  is_connected (self (closed w1 c d)) = false.
Proof.
  intros H Hconnect Hclose. split; [|done].
  destruct (connect_post _ _ _ Hconnect) as (Hc1 & Hh1 & _).
  unfold check_connection. run. given H. given Hconnect.
  rewrite (disconnect_closes w1 c d Hc1 Hh1 Hclose). run. reflexivity.
Qed.
End connection_manager.

(** ** The data frame of a result set *)

Lemma column_names_heads (description : list descriptor) (names : list pyval) :
  Forall2 (fun x name => head x = Some name) description names ->
  column_names description = Returned names.
Proof.
  induction 1 as [|x name description names Hx _ IH]; [done|].
  destruct x as [|v x]; [done|]. injection Hx as ->.
  cbn. by rewrite IH.
Qed.

Lemma data_width_rectangular (rows : list row) (n : nat) :
  rows <> [] -> Forall (fun r => length r = n) rows -> data_width rows = n.
Proof.
  intros Hne Hrows. induction Hrows as [|r rows Hr Hrows IH]; [done|].
  change (data_width (r :: rows)) with (Nat.max (length r) (data_width rows)).
  destruct rows as [|r' rows].
  - cbn. lia.
  - rewrite IH by done. lia.
Qed.

Lemma pad_rows_rectangular (rows : list row) (n : nat) :
  Forall (fun r => length r = n) rows -> pad_row n <$> rows = rows.
Proof.
  induction 1 as [|r rows Hr _ IH]; [done|].
  cbn. rewrite IH. unfold pad_row. rewrite Hr, Nat.sub_diag. cbn.
  by rewrite app_nil_r.
Qed.

(** The threshold of [float_overflows] is where [float_of_int] turns
    infinite. *)
Example float_overflows_boundary :
  is_infinite (float_of_int (2 ^ 1024 - 2 ^ 970)) = true /\
  float_overflows (2 ^ 1024 - 2 ^ 970) = true /\
  is_infinite (float_of_int (2 ^ 1024 - 2 ^ 970 - 1)) = false /\
  float_overflows (2 ^ 1024 - 2 ^ 970 - 1) = false.
Proof. vm_compute. done. Qed.

Lemma in_int64_no_overflow (z : Z) :
  (INT64_MIN <= z <= INT64_MAX)%Z -> float_overflows z = false.
Proof.
  unfold INT64_MIN, INT64_MAX, float_overflows. intros Hz.
  apply bool_decide_eq_false_2.
  assert (2 ^ 64 <= 2 ^ 1024 - 2 ^ 970)%Z by (vm_compute; discriminate).
  assert (2 ^ 63 < 2 ^ 64)%Z by (vm_compute; reflexivity).
  lia.
Qed.

(** The scan of a column of values that fit 64 bits does not raise; what
    it has seen is what the column holds, up to the first [str]. *)
Lemma scan_in_int64 (col : list pyval) :
  forall s,
    Forall in_int64 col -> uint_ s = false ->
    exists s',
      scan s col = Returned s' /\
      if forallb (fun v => negb (is_str v)) col then
        object_ s' = object_ s /\
        bool_ s' = bool_ s || existsb is_bool col /\
        null_ s' = null_ s || existsb is_none col /\
        int_ s' = int_ s || existsb is_int col /\
        float_ s' || nan_ s' = float_ s || nan_ s || existsb is_float col
      else object_ s' = true.
Proof.
  induction col as [|v col IH]; intros s Hcol Huint.
  { exists s. split; [done|]. cbn. by rewrite !orb_false_r. }
  apply Forall_cons in Hcol as (Hv & Hcol).
  assert (Hnext : forall s1,
             uint_ s1 = false ->
             (object_ s1 = object_ s /\
              bool_ s1 = bool_ s || is_bool v /\
              null_ s1 = null_ s || is_none v /\
              int_ s1 = int_ s || is_int v /\
              float_ s1 || nan_ s1 = float_ s || nan_ s || is_float v) ->
             is_str v = false ->
             exists s',
               scan s1 col = Returned s' /\
               if forallb (fun v => negb (is_str v)) (v :: col) then
                 object_ s' = object_ s /\
                 bool_ s' = bool_ s || existsb is_bool (v :: col) /\
                 null_ s' = null_ s || existsb is_none (v :: col) /\
                 int_ s' = int_ s || existsb is_int (v :: col) /\
                 float_ s' || nan_ s'
                 = float_ s || nan_ s || existsb is_float (v :: col)
               else object_ s' = true).
  { intros s1 Huint1 (Ho & Hb & Hn & Hi & Hf) Hstr.
    destruct (IH s1 Hcol Huint1) as (s' & Hscan & Hs'). exists s'.
    split; [done|]. cbn. rewrite Hstr. cbn.
    destruct (forallb _ col); [|done].
    destruct Hs' as (-> & -> & -> & -> & ->).
    rewrite Ho, Hb, Hn, Hi, Hf. by rewrite !orb_assoc. }
  destruct v as [|b|z|f|str]; cbn [scan].
  - apply Hnext; [done| |done]. cbn. by rewrite ?orb_false_r, ?orb_true_r.
  - apply Hnext; [done| |done]. cbn. by rewrite ?orb_false_r, ?orb_true_r.
  - cbn in Hv. rewrite (in_int64_no_overflow z Hv).
    destruct (null_ s) eqn:Hnull.
    + apply Hnext; [done| |done]. cbn.
      by rewrite ?orb_false_r, ?orb_true_r.
    + unfold INT64_MIN, INT64_MAX, UINT64_MAX in *. rewrite Huint.
      rewrite (bool_decide_eq_false_2 (2 ^ 63 - 1 < z <= 2 ^ 64 - 1)%Z) by lia.
      rewrite (bool_decide_eq_false_2 (2 ^ 64 - 1 < z)%Z) by lia.
      rewrite (bool_decide_eq_false_2 (z < - 2 ^ 63)%Z) by lia.
      cbn [orb andb].
      apply Hnext; [done| |done]. cbn.
      by rewrite ?orb_false_r, ?orb_true_r.
  - destruct (is_nan f).
    + apply Hnext; [done| |done]. cbn. by rewrite ?orb_false_r, ?orb_true_r.
    + apply Hnext; [done| |done]. cbn. by rewrite ?orb_false_r, ?orb_true_r.
  - eexists. split; [done|]. done.
Qed.

(** For such a column the type inference decides as [floated] says. *)
Lemma scan_floated (col : list pyval) :
  Forall in_int64 col ->
  exists s, scan nothing_seen col = Returned s /\ to_floats s = floated col.
Proof.
  intros Hcol.
  destruct (scan_in_int64 col nothing_seen Hcol eq_refl) as (s & Hs & Hseen).
  exists s. split; [done|]. unfold to_floats, floated.
  destruct (forallb _ col); [|by rewrite Hseen].
  cbn in Hseen. destruct Hseen as (-> & -> & -> & -> & Hfloat). cbn.
  destruct (existsb is_bool col); [done|]. cbn. rewrite <- Hfloat.
  by destruct (float_ s), (nan_ s), (existsb is_none col),
    (existsb is_int col).
Qed.

Lemma column_in_int64 (j : nat) (rows : list row) :
  Forall (Forall in_int64) rows -> Forall in_int64 (column j rows).
Proof.
  intros Hrows. apply Forall_fmap, Forall_forall. intros r Hr. cbn.
  rewrite nth_lookup. destruct (r !! j) as [v|] eqn:Hv; [|done]. cbn.
  eapply Forall_forall; [|eapply list_elem_of_lookup_2, Hv].
  eapply Forall_forall in Hrows; eassumption.
Qed.

Lemma column_dtypes_floated (rows : list row) (js : list nat) :
  Forall (Forall in_int64) rows ->
  column_dtypes rows js
  = Returned ((fun j => floated (column j rows)) <$> js).
Proof.
  intros Hrows. induction js as [|j js IH]; [done|]. cbn [column_dtypes].
  destruct (scan_floated _ (column_in_int64 j rows Hrows)) as (s & -> & ->).
  by rewrite IH.
Qed.

(** On rectangular rows of the right width, with values that fit 64
    bits, [pandas] builds the frame of the coerced rows under these
    labels. *)
Lemma pd_DataFrame_coerced (rows : list row) (names : list pyval) :
  rows <> [] ->
  Forall (fun r => length r = length names) rows ->
  Forall (Forall in_int64) rows ->
  pd_DataFrame rows names
  = Returned (mkDataFrame names (coerced_rows (length names) rows)).
Proof.
  intros Hne Hrows Hfit. unfold pd_DataFrame.
  rewrite (data_width_rectangular rows (length names)) by done.
  rewrite decide_True by done. rewrite pad_rows_rectangular by done.
  unfold convert_object_array. by rewrite column_dtypes_floated.
Qed.

Lemma column_plain (j w : nat) (rows : list row) :
  (j < w)%nat ->
  Forall (fun r => length r = w) rows ->
  Forall (Forall (fun v => plain v = true)) rows ->
  Forall (fun v => plain v = true) (column j rows).
Proof.
  intros Hj Hrows Hplain. apply Forall_fmap, Forall_forall. intros r Hr. cbn.
  assert (Hlen : length r = w) by (eapply Forall_forall in Hrows; eassumption).
  destruct (lookup_lt_is_Some_2 r j) as (v & Hv); [lia|].
  rewrite (nth_lookup_Some _ _ _ _ Hv).
  assert (Hin : v ∈ r) by (eapply list_elem_of_lookup_2, Hv).
  eapply Forall_forall in Hplain; [|exact Hr].
  eapply Forall_forall in Hplain; [|exact Hin]. exact Hplain.
Qed.

Lemma plain_not_floated (col : list pyval) :
  Forall (fun v => plain v = true) col -> floated col = false.
Proof.
  intros Hcol. unfold floated.
  assert (H : existsb is_none col = false /\ existsb is_float col = false).
  { induction Hcol as [|v col Hv _ (IH1 & IH2)]; [done|]. cbn.
    rewrite IH1, IH2. unfold plain in Hv. by destruct v. }
  destruct H as (-> & ->). cbn. by rewrite andb_false_r.
Qed.

Lemma convert_row_unchanged (floats : list bool) (r : row) :
  Forall (fun b => b = false) floats ->
  (length r <= length floats)%nat ->
  convert_row floats r = r.
Proof.
  intros Hfloats. revert r.
  induction Hfloats as [|b floats -> _ IH]; intros [|v r] Hlen; cbn in *;
    try done; try lia.
  unfold convert_row in IH. rewrite IH by lia. done.
Qed.

(** Rows without [None] and without [float] are held as they are. *)
Lemma coerced_rows_plain (w : nat) (rows : list row) :
  Forall (fun r => length r = w) rows ->
  Forall (Forall (fun v => plain v = true)) rows ->
  coerced_rows w rows = rows.
Proof.
  intros Hrows Hplain. unfold coerced_rows.
  rewrite <- (list_fmap_id rows) at 2. apply Forall_fmap_ext_1.
  eapply Forall_impl; [exact Hrows|]. intros r Hlen. cbn.
  apply convert_row_unchanged.
  - apply Forall_fmap, Forall_forall. intros j Hj. cbn.
    apply elem_of_seq in Hj. apply plain_not_floated.
    apply (column_plain j w); [lia|done|done].
  - by rewrite length_fmap, length_seq, Hlen.
Qed.

(** ** The raw query executor *)

Create HintDb druid.

Section raw_query_executor.
Context {conn cursor dstate : Type} {driver : Driver conn cursor dstate}.
Local Abbreviation M := (M conn cursor dstate).
Local Abbreviation world := (world conn cursor dstate).
Implicit Types (w : world) (c : conn) (cur : cursor) (d : dstate).

(** The end of [native_query]: the cursor is closed, then the
    connection if the call opened it. *)
Ltac cleanup Hclean Hneed Hc1 Hh1 :=
  let d := fresh "d" in
  let Hcur := fresh "Hcur" in
  let Hconn := fresh "Hconn" in
  destruct Hclean as (d & Hcur & Hconn); given Hcur;
  destruct (is_connected (self _)) eqn:Hneed; run;
  [ | destruct (Hconn eq_refl) as (? & ?);
      erewrite disconnect_closes by (cbn; eassumption); run ].

(** C1: when the handler holds a connection or the implicit [connect]
    opens one, and the execution of the query raises an [Exception] [e]
    (in [execute], in [fetchall] or in [commit]), [native_query]
    returns the [ERROR] response with the message [str(e)]; nothing is
    raised to the caller. *)
Theorem native_query_error query w c w1 cur d1 e d2 :
  connect w = (Returned (Some c), w1) ->
  conn_cursor c (drv w1) = (Returned cur, d1) ->
  execution_raises c cur query d1 e d2 ->
  exc_is_Exception e = true ->
  cleanup_returns (negb (is_connected (self w))) c cur d2 ->
  exists w',
    native_query query w
    = (Returned (mkResponse ERROR None (Some (exc_str e))), w').
Proof.
  intros Hconnect Hcursor Hraises He Hclean.
  destruct (connect_post _ _ _ Hconnect) as (Hc1 & Hh1 & _).
  unfold native_query, run_query. run. given Hconnect. given Hcursor.
  destruct Hraises as [Hx|d' Hx Hf|d' d'' Hx Hf Hcommit].
  - given Hx. given He. cleanup Hclean Hneed Hc1 Hh1; by eexists.
  - given Hx. given Hf. given He. cleanup Hclean Hneed Hc1 Hh1; by eexists.
  - given Hx. given Hf. given Hcommit. given He.
    cleanup Hclean Hneed Hc1 Hh1; by eexists.
Qed.

(** C3: when the handler is disconnected and the driver's [connect]
    raises, [native_query] raises that exception to its caller: no
    response is returned, and the handler object is as it was,
    disconnected. *)
Theorem native_query_connect_raises query w args e d :
  is_connected (self w) = false ->
  connect_arguments (connection_data (self w)) = Returned args ->
  drv_connect args (drv w) = (Raised e, d) ->
  exists w',
    native_query query w = (Raised e, w') /\
    self w' = self w /\ is_connected (self w') = false /\
    calls w' = calls w ++ [Call_connect args].
Proof.
  intros H Hargs Hopen. unfold native_query, connect. run.
  given H. given Hargs. given Hopen. eexists. split; [reflexivity|]. done.
Qed.
(** X17: the cursor is asked for outside the [try] block.  What
    [connection.cursor()] raises reaches the caller of [native_query],
    no response is returned, and the handler is left connected: a
    connection that the call has opened itself stays open. *)
Lemma native_query_cursor_raises query w c w1 e d1 :
  connect w = (Returned (Some c), w1) ->
  conn_cursor c (drv w1) = (Raised e, d1) ->
  exists w',
    native_query query w = (Raised e, w') /\
    is_connected (self w') = true /\
    calls w' = calls w1 ++ [Call_cursor c].
Proof.
  intros Hconnect Hcursor.
  destruct (connect_post _ _ _ Hconnect) as (Hc1 & _).
  unfold native_query. run. given Hconnect. given Hcursor.
  eexists. split; [reflexivity|]. done.
Qed.

(** X18: the cursor is closed outside the [try] block too.  When the
    execution has raised an [Exception] and [cursor.close()] raises as
    well, [native_query] raises the latter: the [ERROR] response that was
    built is lost. *)
Lemma native_query_cursor_close_raises query w c w1 cur d1 e d2 e' d3 :
  connect w = (Returned (Some c), w1) ->
  conn_cursor c (drv w1) = (Returned cur, d1) ->
  execution_raises c cur query d1 e d2 ->
  exc_is_Exception e = true ->
  cursor_close cur d2 = (Raised e', d3) ->
  exists w', native_query query w = (Raised e', w').
Proof.
  intros Hconnect Hcursor Hraises He Hclose.
  unfold native_query, run_query. run. given Hconnect. given Hcursor.
  destruct Hraises as [Hx|d' Hx Hf|d' d'' Hx Hf Hcommit].
  - given Hx. given He. given Hclose. by eexists.
  - given Hx. given Hf. given He. given Hclose. by eexists.
  - given Hx. given Hf. given Hcommit. given He. given Hclose. by eexists.
Qed.

(** C5, amended: when the execution of the query yields a non-empty,
    rectangular row set under the cursor's descriptors, whose [int]s fit
    64 bits, [native_query] returns the [TABLE] response whose data
    frame has for column labels the first elements of the descriptors,
    in order, and one row for each fetched row, in order, with the
    values as the type inference of [pandas] holds them: in a column
    without [str] and [bool] that has a [float], or an [int] and a
    [None], every [int] is the double of its value and every [None] is
    [NaN]; every other cell is the fetched value.  Rows without [None]
    and without [float] are exactly the fetched rows. *)
Theorem native_query_table query w c w1 cur d1 d2 d3 rows description names :
  connect w = (Returned (Some c), w1) ->
  conn_cursor c (drv w1) = (Returned cur, d1) ->
  cursor_execute cur query d1 = (Returned (), d2) ->
  cursor_fetchall cur d2 = (Returned rows, d3) ->
  rows <> [] ->
  cursor_description cur d3 = Some description ->
  Forall2 (fun x name => head x = Some name) description names ->
  Forall (fun r => length r = length description) rows ->
  Forall (Forall in_int64) rows ->
  cleanup_returns (negb (is_connected (self w))) c cur d3 ->
  (exists w',
     native_query query w
     = (Returned (mkResponse TABLE
                    (Some (mkDataFrame names
                             (coerced_rows (length names) rows)))
                    None), w')) /\
  length (coerced_rows (length names) rows) = length rows /\
  (Forall (Forall (fun v => plain v = true)) rows ->
   coerced_rows (length names) rows = rows).
Proof.
  intros Hconnect Hcursor Hx Hf Hne Hdescr Hnames Hrows Hfit Hclean.
  rewrite (Forall2_length _ _ _ Hnames) in Hrows.
  split; [|split].
  - destruct (connect_post _ _ _ Hconnect) as (Hc1 & Hh1 & _).
    pose proof (pd_DataFrame_coerced rows names Hne Hrows Hfit) as Hframe.
    unfold native_query, run_query. run. given Hconnect. given Hcursor.
    given Hx. given Hf. destruct rows as [|r rows]; [done|]. run.
    given Hdescr. rewrite (column_names_heads _ _ Hnames). run. given Hframe.
    cleanup Hclean Hneed Hc1 Hh1; by eexists.
  - unfold coerced_rows. by rewrite length_fmap.
  - intros Hplain. by apply coerced_rows_plain.
Qed.

(** C6: when the execution of the query yields no row (and the commit
    goes through), [native_query] returns the [OK] response, without
    data frame or message, and has called [commit] exactly once, on
    the connection. *)
Theorem native_query_ok query w c w1 cur d1 d2 d3 d4 :
  connect w = (Returned (Some c), w1) ->
  conn_cursor c (drv w1) = (Returned cur, d1) ->
  cursor_execute cur query d1 = (Returned (), d2) ->
  cursor_fetchall cur d2 = (Returned [], d3) ->
  conn_commit c d3 = (Returned (), d4) ->
  cleanup_returns (negb (is_connected (self w))) c cur d4 ->
  exists w' new,
    native_query query w = (Returned (mkResponse OK None None), w') /\
    calls w' = calls w ++ new /\
    List.filter is_commit new = [Call_commit c].
Proof.
  intros Hconnect Hcursor Hx Hf Hcommit Hclean.
  destruct (connect_post _ _ _ Hconnect)
    as (Hc1 & Hh1 & _ & pre & Hpre & _ & Hnocommit & _).
  unfold native_query, run_query. run. given Hconnect. given Hcursor.
  given Hx. given Hf. given Hcommit.
  cleanup Hclean Hneed Hc1 Hh1; eexists _, _;
    (split; [reflexivity|]); cbn; rewrite Hpre, <- !(assoc_L (++));
    (split; [reflexivity|]); rewrite List.filter_app, Hnocommit; done.
Qed.

Lemma connection_kept_refl w : connection_kept w (self w) (calls w).
Proof. split; [done|]. exists []. by rewrite app_nil_r. Qed.

Lemma connection_kept_call w s l (ev : call conn cursor) :
  connection_kept w s l ->
  is_connect ev = false -> is_close ev = false ->
  connection_kept w s (l ++ [ev]).
Proof.
  intros (Hself & new & Hcalls & Hopen & Hclose) Hev1 Hev2.
  split; [done|]. exists (new ++ [ev]).
  rewrite Hcalls, !List.filter_app, Hopen, Hclose. cbn.
  rewrite Hev1, Hev2. by rewrite <- (assoc_L (++)).
Qed.

#[local] Hint Resolve connection_kept_refl connection_kept_call : druid.

(** Settles [keeps_connection] for the world a method ends in. *)
Ltac kept := intros [= <- <-]; red; cbn; eauto 10 with druid.

(** The [try] block leaves the handler object alone and neither opens
    nor closes a connection, whatever its outcome. *)
Lemma run_query_keeps h cur query w0 w o w' :
  keeps_connection w0 w ->
  run_query h cur query w = (o, w') -> keeps_connection w0 w'.
Proof.
  intros Hw. unfold run_query. run.
  destruct (cursor_execute cur query (drv w)) as [[[]|e] d1]; run;
    [|kept].
  destruct (cursor_fetchall cur d1) as [[rows|e] d2]; run;
    [|kept].
  destruct rows as [|r rows]; run.
  - destruct h as [c|]; run; [|kept].
    destruct (conn_commit c d2) as [[[]|e] d3]; run;
      kept.
  - destruct (cursor_description cur d2) as [description|]; run;
      [|kept].
    destruct (column_names description) as [names|e]; run;
      [|kept].
    destruct (pd_DataFrame _ names) as [df|e]; run;
      kept.
Qed.

(** On a connected handler [native_query] leaves the connection open,
    whatever its outcome. *)
Lemma native_query_connected_keeps query w o w' :
  is_connected (self w) = true ->
  native_query query w = (o, w') -> keeps_connection w w'.
Proof.
  intros H. unfold native_query. run. given H.
  rewrite (connect_connected w H). run.
  destruct (connection (self w)) as [c|]; run;
    [|kept].
  destruct (conn_cursor c (drv w)) as [[cur|e] d1]; run;
    [|kept].
  match goal with
  | |- context [run_query ?h ?cur ?q ?w1] =>
      destruct (run_query h cur q w1) as [[r|e] w2] eqn:Hrun;
      (apply (run_query_keeps _ _ _ w) in Hrun; [|red; cbn; eauto with druid])
  end.
  - destruct (cursor_close cur (drv w2)) as [[[]|e] d2]; run;
      kept.
  - destruct (exc_is_Exception e); run; [|kept].
    destruct (cursor_close cur (drv w2)) as [[[]|e'] d2]; run;
      kept.
Qed.

(** On a disconnected handler a call of [native_query] that returns
    has opened a connection first and closed it last. *)
Lemma native_query_disconnected_closes query w r w' :
  is_connected (self w) = false ->
  native_query query w = (Returned r, w') ->
  is_connected (self w') = false /\
  exists args c mid,
    connection (self w') = Some c /\
    calls w' = calls w ++ Call_connect args :: mid ++ [Call_close c] /\
    List.filter is_connect mid = [] /\ List.filter is_close mid = [].
Proof.
  intros H. unfold native_query. run. given H.
  destruct (connect w) as [[h|e] w1] eqn:Hconnect; [|done].
  apply connect_inv in Hconnect
    as [(Hc & _)|(_ & args & c & d & _ & _ & -> & ->)]; [congruence|].
  unfold opened. run.
  destruct (conn_cursor c d) as [[cur|e] d1]; run; [|done].
  match goal with
  | |- context [run_query ?h ?cur ?q ?w1] =>
      destruct (run_query h cur q w1) as [[r0|e] w2] eqn:Hrun;
      (apply (run_query_keeps _ _ _ w1) in Hrun as Hkeeps;
       [|red; cbn; eauto with druid])
  end.
  all: destruct Hkeeps as (Hself & new & Hcalls & Hopen & Hclose).
  all: cbn in Hself, Hcalls.
  all: try (destruct (exc_is_Exception e); run; [|done]).
  all: destruct (cursor_close cur (drv w2)) as [[[]|e'] d2]; run; [|done].
  all: unfold disconnect; run; rewrite Hself; run.
  all: destruct (conn_close c d2) as [[[]|e'] d3]; run; [|done].
  all: intros [= <- <-]; split; [done|]; cbn.
  all: exists args, c, (Call_cursor c :: new ++ [Call_cursor_close cur]).
  all: rewrite Hcalls; cbn; split; [done|].
  all: rewrite !List.filter_app, Hopen, Hclose; cbn.
  all: by rewrite <- !(assoc_L (++)).
Qed.

(** C4: when [native_query] returns, whatever the response, the handler
    is in the connection state it was called in.  Called disconnected,
    it is disconnected again, and the connection the call opened was
    closed by its last call to the driver; called connected, it is
    still connected, to the same connection, which the call did not
    close. *)
Theorem native_query_restores query w r w' :
  native_query query w = (Returned r, w') ->
  is_connected (self w') = is_connected (self w) /\
  (is_connected (self w) = false ->
     exists args c mid,
       calls w' = calls w ++ Call_connect args :: mid ++ [Call_close c] /\
       List.filter is_close mid = []) /\
  (is_connected (self w) = true ->
     connection (self w') = connection (self w) /\
     exists new, calls w' = calls w ++ new /\ List.filter is_close new = []).
Proof.
  intros Hq. destruct (is_connected (self w)) eqn:H.
  - destruct (native_query_connected_keeps _ _ _ _ H Hq)
      as (Hself & new & Hcalls & _ & Hclose).
    rewrite Hself. split; [done|]. split; [done|].
    intros _. split; [done|]. by exists new.
  - destruct (native_query_disconnected_closes _ _ _ _ H Hq)
      as (Hdisc & args & c & mid & _ & Hcalls & _ & Hclose).
    split; [done|]. split; [|done]. intros _. by exists args, c, mid.
Qed.
End raw_query_executor.

(** ** The effective configuration *)

Lemma lookup_setdefault (key k : string) (v : pyval) (d : dict) :
  setdefault key v d !! k
  = match d !! k with
    | Some x => Some x
    | None => if decide (k = key) then Some v else None
    end.
Proof.
  unfold setdefault. destruct (d !! key) as [x|] eqn:Hkey.
  - destruct (d !! k) as [y|] eqn:Hk; [done|].
    case_decide; [congruence|done].
  - destruct (decide (k = key)) as [->|Hne].
    + by rewrite lookup_insert_eq, Hkey.
    + rewrite lookup_insert_ne by done. by destruct (d !! k).
Qed.

Section configuration.
Context {conn : Type}.

(** The configuration of a new handler: a key that was supplied keeps
    its value, and the four optional keys are there in any case. *)
Lemma init_connection_data (name : string) (config : dict) :
  exists h : DruidHandler conn,
    init name (Some config) = Returned h /\
    connection h = None /\ is_connected h = false /\
    forall k,
      connection_data h !! k
      = match config !! k with
        | Some v => Some v
        | None =>
            if decide (k = "user") then Some PyNone
            else if decide (k = "password") then Some PyNone
            else if decide (k = "path") then Some (PyStr "/druid/v2/sql/")
            else if decide (k = "scheme") then Some (PyStr "http")
            else None
        end.
Proof.
  eexists. split; [reflexivity|]. split; [done|]. split; [done|].
  intros k. cbn. rewrite !lookup_setdefault.
  destruct (config !! k); [done|].
  repeat case_decide; done.
Qed.

(** C9: for a configuration with [host] and [port], the effective
    configuration of the new handler has every supplied key with its
    supplied value, and for each of [user], [password], [path] and
    [scheme] that was omitted the default: [None], [None],
    ['/druid/v2/sql/'] and ['http']. *)
Theorem init_effective_config (name : string) (config : dict) (host port : pyval) :
  config !! "host" = Some host ->
  config !! "port" = Some port ->
  exists h : DruidHandler conn,
    init name (Some config) = Returned h /\
    connection_data h !! "host" = Some host /\
    connection_data h !! "port" = Some port /\
    connection_data h !! "user" = Some (default PyNone (config !! "user")) /\
    connection_data h !! "password"
      = Some (default PyNone (config !! "password")) /\
    connection_data h !! "path"
      = Some (default (PyStr "/druid/v2/sql/") (config !! "path")) /\
    connection_data h !! "scheme"
      = Some (default (PyStr "http") (config !! "scheme")) /\
    forall k v, config !! k = Some v -> connection_data h !! k = Some v.
Proof.
  intros Hhost Hport.
  destruct (init_connection_data name config) as (h & Hinit & _ & _ & Hdata).
  exists h. split; [done|].
  split_and!.
  - by rewrite Hdata, Hhost.
  - by rewrite Hdata, Hport.
  - rewrite Hdata. destruct (config !! "user"); reflexivity.
  - rewrite Hdata. destruct (config !! "password"); reflexivity.
  - rewrite Hdata. destruct (config !! "path"); reflexivity.
  - rewrite Hdata. destruct (config !! "scheme"); reflexivity.
  - intros k v Hk. by rewrite Hdata, Hk.
Qed.
End configuration.

(** ** Schema introspection *)

Section schema_introspection.
Context {conn cursor dstate : Type} {driver : Driver conn cursor dstate}.
Local Abbreviation world := (world conn cursor dstate).
Implicit Types (w : world).

(** A response without data frame, as [native_query] builds it for
    [ERROR] and for [OK], makes [get_tables] raise: [None] is
    subscripted. *)
Lemma get_tables_without_frame w r w' :
  native_query tables_query w = (Returned r, w') ->
  data_frame r = None ->
  get_tables w
  = (Raised (TypeError "'NoneType' object is not subscriptable"), w').
Proof.
  intros Hq Hframe. unfold get_tables. run. given Hq. by rewrite Hframe.
Qed.
End schema_introspection.

(** ** The handler against the scripted driver *)

(** C2: [get_tables] does not pass an [ERROR] response on.  Against a
    server that rejects the query, [native_query] returns the [ERROR]
    response, and [get_tables], which subscripts the data frame of that
    response, raises [TypeError] to its caller instead of returning it. *)
Theorem get_tables_error_raises :
  let w := start (new_handler example_config) (rejecting query_error) in
  exists w',
    native_query tables_query w
    = (Returned (mkResponse ERROR None (Some "Table not found")), w') /\
    get_tables w
    = (Raised (TypeError "'NoneType' object is not subscriptable"), w').
Proof.
  intros w. eexists. split; [vm_compute; reflexivity|].
  eapply get_tables_without_frame; [vm_compute; reflexivity|reflexivity].
Qed.

(** The same happens when the information schema answers with no row:
    the [OK] response has no data frame either. *)
Example get_tables_ok_raises :
  exists w',
    get_tables (start (new_handler example_config) (serving [] []))
    = (Raised (TypeError "'NoneType' object is not subscriptable"), w').
Proof. eexists. vm_compute. reflexivity. Qed.

(** With rows, [get_tables] returns the two columns under their
    lower-case names. *)
Example get_tables_table :
  exists w',
    get_tables (start (new_handler example_config)
                  (serving tables_description tables_rows))
    = (Returned (mkResponse TABLE
                   (Some (mkDataFrame [PyStr "table_name"; PyStr "table_type"]
                            [[PyStr "t1"; PyStr "TABLE"]]))
                   None), w').
Proof. eexists. vm_compute. reflexivity. Qed.

(** A connection that [native_query] opened stays open when no cursor
    is to be had. *)
Example native_query_without_cursor :
  exists w',
    native_query "SELECT 1"
      (start (new_handler example_config) (without_cursor query_error))
    = (Raised query_error, w') /\
    is_connected (self w') = true /\
    calls w' = [Call_connect example_args; Call_cursor 1%nat].
Proof. eexists. split; [vm_compute; reflexivity|]. split; reflexivity. Qed.

(** *** The theorems at work

    Each theorem above that has premises is applied to the handler of
    the example configuration over a scripted driver. *)

(** The query is rejected: [execute] raises. *)
Lemma native_query_error_witness :
  exists w',
    native_query "SELECT 1"
      (start (new_handler example_config) (rejecting query_error))
    = (Returned (mkResponse ERROR None (Some "Table not found")), w').
Proof.
  eapply (native_query_error _ _ 1%nat _ 7%nat _ query_error).
  - reflexivity.
  - reflexivity.
  - apply execute_raises. reflexivity.
  - reflexivity.
  - eexists. split; [reflexivity|]. intros _. eexists. reflexivity.
Defined.

(** The server cannot be reached: the driver's [connect] raises. *)
Lemma native_query_connect_raises_witness :
  exists w',
    native_query "SELECT 1"
      (start (new_handler example_config) (unreachable connection_refused))
    = (Raised connection_refused, w') /\
    self w' = new_handler example_config /\
    is_connected (self w') = false /\
    calls w' = [] ++ [Call_connect example_args].
Proof.
  apply (native_query_connect_raises "SELECT 1"
           (start (new_handler example_config) (unreachable connection_refused))
           example_args connection_refused (unreachable connection_refused)).
  - reflexivity.
  - reflexivity.
  - reflexivity.
Defined.

(** A query with rows on a disconnected handler. *)
Lemma native_query_restores_witness :
  let w := start (new_handler example_config)
             (serving tables_description tables_rows) in
  exists r w',
    native_query "SELECT 1" w = (Returned r, w') /\
    is_connected (self w') = is_connected (self w) /\
    is_connected (self w') = false.
Proof.
  intros w.
  destruct (native_query "SELECT 1" w) as [[r|e] w'] eqn:Hq;
    [|vm_compute in Hq; discriminate Hq].
  exists r, w'. split; [reflexivity|].
  destruct (native_query_restores "SELECT 1" w r w' Hq) as (Hsame & _ & _).
  split; [exact Hsame|]. rewrite Hsame. reflexivity.
Defined.

(** One row of strings under two descriptors. *)
Lemma native_query_table_witness :
  (exists w',
     native_query "SELECT 1"
       (start (new_handler example_config)
          (serving tables_description tables_rows))
     = (Returned (mkResponse TABLE
                    (Some (mkDataFrame [PyStr "TABLE_NAME"; PyStr "TABLE_TYPE"]
                             (coerced_rows 2 tables_rows)))
                    None), w')) /\
  coerced_rows 2 tables_rows = tables_rows.
Proof.
  destruct (native_query_table "SELECT 1"
              (start (new_handler example_config)
                 (serving tables_description tables_rows))
              1%nat
              (opened (start (new_handler example_config)
                         (serving tables_description tables_rows))
                 example_args 1%nat (serving tables_description tables_rows))
              7%nat (serving tables_description tables_rows)
              (serving tables_description tables_rows)
              (serving tables_description tables_rows)
              tables_rows tables_description
              [PyStr "TABLE_NAME"; PyStr "TABLE_TYPE"])
    as (Hq & _ & Hsame).
  - reflexivity.
  - reflexivity.
  - reflexivity.
  - reflexivity.
  - discriminate.
  - reflexivity.
  - repeat constructor.
  - repeat constructor.
  - repeat constructor.
  - eexists. split; [reflexivity|]. intros _. eexists. reflexivity.
  - split; [exact Hq|]. apply Hsame. repeat constructor.
Defined.

(** C5, the claim as it was stated fails: a row set whose first column
    holds an [int] and a [None] comes back with the double [1.0] and
    [NaN] in that column, not with the fetched rows. *)
Lemma native_query_table_not_fetched_rows :
  let w := start (new_handler example_config)
             (serving edits_description edits_rows) in
  (exists w',
     native_query "SELECT added, page FROM edits" w
     = (Returned (mkResponse TABLE
                    (Some (mkDataFrame [PyStr "added"; PyStr "page"]
                             [[PyFloat (float_of_int 1); PyStr "x"];
                              [PyFloat S754_nan; PyStr "y"]]))
                    None), w')) /\
  ~ (exists w',
       native_query "SELECT added, page FROM edits" w
       = (Returned (mkResponse TABLE
                      (Some (mkDataFrame [PyStr "added"; PyStr "page"]
                               edits_rows))
                      None), w')).
Proof.
  intros w. split.
  - eexists. vm_compute. reflexivity.
  - intros (w' & H). vm_compute in H. discriminate H.
Qed.

(** A statement without rows. *)
Lemma native_query_ok_witness :
  let w := start (new_handler example_config) (serving [] []) in
  exists w' new,
    native_query "DROP TABLE t1" w = (Returned (mkResponse OK None None), w') /\
    calls w' = calls w ++ new /\
    List.filter is_commit new = [Call_commit 1%nat].
Proof.
  intros w. eapply (native_query_ok "DROP TABLE t1" w 1%nat _ 7%nat).
  - reflexivity.
  - reflexivity.
  - reflexivity.
  - reflexivity.
  - reflexivity.
  - eexists. split; [reflexivity|]. intros _. eexists. reflexivity.
Defined.

(** The probe of a reachable server from a disconnected handler. *)
Lemma check_connection_probe_witness :
  let w := start (new_handler example_config) (serving [] []) in
  let w1 := opened w example_args 1%nat (serving [] []) in
  check_connection w
  = (Returned (mkStatusResponse true None), closed w1 1%nat (serving [] [])) /\
  is_connected (self (closed w1 1%nat (serving [] []))) = false.
Proof.
  intros w w1. apply check_connection_probe.
  - reflexivity.
  - reflexivity.
  - reflexivity.
Defined.

(** Two calls of [connect] on a new handler. *)
Lemma connect_idempotent_witness :
  let w := start (new_handler example_config) (serving [] []) in
  let w1 := opened w example_args 1%nat (serving [] []) in
  connect w1 = (Returned (Some 1%nat), w1) /\
  (h1 <- connect ;; h2 <- connect ;; ret (h1, h2)) w
  = (Returned (Some 1%nat, Some 1%nat), w1) /\
  calls w1 = [Call_connect example_args].
Proof.
  intros w w1.
  assert (Hconnect : connect w = (Returned (Some 1%nat), w1)) by reflexivity.
  destruct (connect_idempotent w (Some 1%nat) w1 Hconnect)
    as (Hagain & Hboth & Hopened & _).
  split; [exact Hagain|]. split; [exact Hboth|]. reflexivity.
Defined.

(** The effective configuration of [example_config]. *)
Lemma init_effective_config_witness :
  exists h : DruidHandler nat,
    init "druid_datasource" (Some example_config) = Returned h /\
    connection_data h !! "host" = Some (PyStr "localhost") /\
    connection_data h !! "port" = Some (PyInt 8888) /\
    connection_data h !! "user" = Some PyNone /\
    connection_data h !! "password" = Some PyNone /\
    connection_data h !! "path" = Some (PyStr "/druid/v2/sql/") /\
    connection_data h !! "scheme" = Some (PyStr "http").
Proof.
  destruct (init_effective_config (conn := nat) "druid_datasource"
              example_config (PyStr "localhost") (PyInt 8888)
              eq_refl eq_refl)
    as (h & Hinit & Hhost & Hport & Huser & Hpassword & Hpath & Hscheme & _).
  exists h. repeat split; assumption.
Defined.

(** A connected handler whose server has gone away still checks out. *)
Lemma check_connection_connected_witness :
  let w := start (connected_handler example_config 1%nat)
             (unreachable connection_refused) in
  check_connection w = (Returned (mkStatusResponse true None), w).
Proof. intros w. apply check_connection_connected. reflexivity. Defined.

(** * Further properties *)

(** ** The connection manager, continued *)

Section connection_manager_more.
Context {conn cursor dstate : Type} {driver : Driver conn cursor dstate}.
Local Abbreviation M := (M conn cursor dstate).
Local Abbreviation world := (world conn cursor dstate).
Implicit Types (w : world) (c : conn) (cur : cursor) (d : dstate).

(** The first lookup that fails decides what [connect_arguments]
    raises. *)
Lemma connect_arguments_raises (config : dict) e :
  connect_arguments config = Raised e ->
  exists key, e = KeyError key /\ config !! key = None.
Proof.
  unfold connect_arguments, getitem.
  repeat (match goal with
          | |- context [config !! ?k] =>
              destruct (config !! k) eqn:?;
              [|intros [= <-]; eexists; split; [reflexivity|done]]
          end).
  done.
Qed.

(** A call of [connect] that raises found the handler disconnected and
    either missed a key of the configuration, before any call to the
    driver, or passes on what the driver raised. *)
Lemma connect_raises_inv w e w' :
  connect w = (Raised e, w') ->
  is_connected (self w) = false /\ self w' = self w /\
  logged w' = logged w /\
  ((exists key, e = KeyError key /\
      connection_data (self w) !! key = None /\ w' = w) \/
   (exists args d,
      connect_arguments (connection_data (self w)) = Returned args /\
      drv_connect args (drv w) = (Raised e, d) /\
      w' = mkWorld (self w) d (calls w ++ [Call_connect args]) (logged w))).
Proof.
  unfold connect. run.
  destruct (is_connected (self w)) eqn:Hconn; [done|].
  destruct (connect_arguments _) as [args|e0] eqn:Hargs; run.
  - destruct (drv_connect args (drv w)) as [[c|e0] d] eqn:Hopen; run; [done|].
    intros [= <- <-]. split_and!; try done. right. by exists args, d.
  - intros [= <- <-]. split_and!; try done. left.
    destruct (connect_arguments_raises _ _ Hargs) as (key & -> & Hkey).
    by exists key.
Qed.

(** X1: [disconnect] is idempotent.  After a call that returned, a
    second call returns [None] and changes nothing; the first call
    closed the connection, once, exactly when the handler was
    connected. *)
Theorem disconnect_idempotent w r w1 :
  disconnect w = (Returned r, w1) ->
  disconnect w1 = (Returned None, w1) /\
  (disconnect ;; disconnect) w = (Returned None, w1) /\
  (is_connected (self w) = false -> r = None /\ w1 = w) /\
  (is_connected (self w) = true ->
     r = Some false /\
     exists c, connection (self w) = Some c /\
               calls w1 = calls w ++ [Call_close c]).
Proof.
  intros H.
  assert (Hagain : disconnect w1 = (Returned None, w1))
    by (apply disconnect_disconnected; eapply disconnect_post; eassumption).
  split; [exact Hagain|]. split; [run; by rewrite H, Hagain|].
  revert H. unfold disconnect. run.
  destruct (is_connected (self w)) eqn:Hconn; run.
  - destruct (connection (self w)) as [c|]; run; [|done].
    destruct (conn_close c (drv w)) as [[[]|e] d]; run; [|done].
    intros [= <- <-]. split; [done|]. intros _. split; [done|]. by exists c.
  - intros [= <- <-]. done.
Qed.


(** X3: a call of [connect] that raises leaves the handler object as it
    was, disconnected; at most one call reached the driver, its
    [connect]. *)
Theorem connect_failure_keeps_state w e w' :
  connect w = (Raised e, w') ->
  self w' = self w /\ is_connected (self w') = false /\
  (calls w' = calls w \/ exists args, calls w' = calls w ++ [Call_connect args]).
Proof.
  intros H.
  destruct (connect_raises_inv _ _ _ H)
    as (Hconn & Hself & _ & [(key & _ & _ & ->)|(args & d & _ & _ & ->)]).
  - split_and!; try done. by left.
  - split_and!; try done. right. by exists args.
Qed.

(** X4: when the probing [connect] raises an [Exception] [e],
    [check_connection] does not raise: it returns a status with
    [success=False] and the message [str(e)], logs the error, and the
    handler is as it was, disconnected. *)
Theorem check_connection_failure w e w1 :
  connect w = (Raised e, w1) ->
  exc_is_Exception e = true ->
  check_connection w
  = (Returned (mkStatusResponse false (Some (exc_str e))),
     mkWorld (self w) (drv w1) (calls w1)
       (logged w ++ ["Error connecting to Pinot, " +:+ exc_str e +:+ "!"])) /\
  is_connected (self w) = false.
Proof.
  intros H He.
  destruct (connect_raises_inv _ _ _ H) as (Hconn & Hself & Hlog & _).
  split; [|done]. unfold check_connection. run. given Hconn. given H.
  given He. rewrite Hself, Hlog. given Hconn. reflexivity.
Qed.

(** X5: whenever [check_connection] returns, the handler is in the
    connection state it was called in, and the status is either a
    success without message or a failure with one; a failure is only
    reported from a disconnected handler. *)
Theorem check_connection_restores w r w' :
  check_connection w = (Returned r, w') ->
  is_connected (self w') = is_connected (self w) /\
  ((success r = true /\ status_error_message r = None) \/
   (success r = false /\ is_Some (status_error_message r) /\
    is_connected (self w) = false)).
Proof.
  unfold check_connection. run.
  destruct (connect w) as [[h|e] w1] eqn:Hconnect; run.
  - apply connect_inv in Hconnect
      as [(Hc & -> & ->)|(Hc & args & c & d & _ & _ & -> & ->)].
    + given Hc. intros [= <- <-]. split; [done|]. by left.
    + given Hc. unfold disconnect, opened. run.
      destruct (conn_close c d) as [[[]|e] d']; run; [|done].
      intros [= <- <-]. split; [done|]. by left.
  - destruct (connect_raises_inv _ _ _ Hconnect) as (Hc & Hself & _).
    destruct (exc_is_Exception e); run.
    + rewrite Hself. given Hc. intros [= <- <-]. split; [done|]. right. done.
    + rewrite Hself. given Hc. done.
Qed.

(** X19: the [finally] block of [check_connection] is not protected.
    When the probe has opened a connection and its [close] raises,
    [check_connection] raises that exception instead of returning a
    status, and the handler is left connected. *)
Theorem check_connection_close_raises w c w1 e d :
  is_connected (self w) = false ->
  connect w = (Returned (Some c), w1) ->
  conn_close c (drv w1) = (Raised e, d) ->
  exists w',
    check_connection w = (Raised e, w') /\
    is_connected (self w') = true /\ connection (self w') = Some c.
Proof.
  intros H Hconnect Hclose.
  destruct (connect_post _ _ _ Hconnect) as (Hc1 & Hh1 & _).
  unfold check_connection. run. given H. given Hconnect.
  unfold disconnect. run. given Hc1. given Hh1. given Hclose.
  eexists. split; [reflexivity|]. done.
Qed.

(** X6: when [__del__] returns, the handler is disconnected; on a
    disconnected handler it does nothing, on a connected one it closes
    the connection, once. *)
Theorem del_releases w w' :
  del w = (Returned (), w') ->
  is_connected (self w') = false /\
  (is_connected (self w) = false -> w' = w) /\
  (is_connected (self w) = true ->
     exists c, connection (self w) = Some c /\
               calls w' = calls w ++ [Call_close c]).
Proof.
  unfold del. run.
  destruct (is_connected (self w)) eqn:Hconn; run.
  - unfold disconnect. run. given Hconn.
    destruct (connection (self w)) as [c|]; run; [|done].
    destruct (conn_close c (drv w)) as [[[]|e] d]; run; [|done].
    intros [= <-]. split; [done|]. split; [done|]. intros _. by exists c.
  - intros [= <-]. done.
Qed.
End connection_manager_more.

(** ** The configuration, continued *)

Section configuration_more.
Context {conn cursor dstate : Type} {driver : Driver conn cursor dstate}.
Local Abbreviation world := (world conn cursor dstate).
Implicit Types (w : world) (h : DruidHandler conn).

(** The configuration [__init__] leaves, by keys. *)
Lemma init_lookup (name : string) (config : dict) h (k : string) :
  init name (Some config) = Returned h ->
  connection_data h !! k
  = match config !! k with
    | Some v => Some v
    | None =>
        if decide (k = "user") then Some PyNone
        else if decide (k = "password") then Some PyNone
        else if decide (k = "path") then Some (PyStr "/druid/v2/sql/")
        else if decide (k = "scheme") then Some (PyStr "http")
        else None
    end.
Proof.
  intros Hinit.
  destruct (init_connection_data (conn := conn) name config)
    as (h' & Hinit' & _ & _ & Hdata).
  rewrite Hinit in Hinit'. injection Hinit' as <-. apply Hdata.
Qed.

(** The arguments a new handler has for the driver. *)
Lemma init_connect_arguments (name : string) (config : dict) h host port :
  init name (Some config) = Returned h ->
  config !! "host" = Some host ->
  config !! "port" = Some port ->
  connect_arguments (connection_data h)
  = Returned (mkConnectArgs host port
                (default (PyStr "/druid/v2/sql/") (config !! "path"))
                (default (PyStr "http") (config !! "scheme"))
                (default PyNone (config !! "user"))
                (default PyNone (config !! "password"))).
Proof.
  intros Hinit Hhost Hport. unfold connect_arguments, getitem.
  rewrite !(init_lookup _ _ _ _ Hinit), Hhost, Hport.
  destruct (config !! "path"), (config !! "scheme"), (config !! "user"),
    (config !! "password"); reflexivity.
Qed.

(** X7: the first [connect] of a handler made from a configuration with
    [host] and [port] calls the driver, whatever comes of it, with the
    supplied values and, for [path], [scheme], [user] and [password],
    the supplied value or the default; no [KeyError] can arise. *)
Theorem init_then_connect (name : string) (config : dict) host port h w o w' :
  init name (Some config) = Returned h ->
  config !! "host" = Some host ->
  config !! "port" = Some port ->
  self w = h ->
  connect w = (o, w') ->
  calls w'
  = calls w ++
    [Call_connect
       (mkConnectArgs host port
          (default (PyStr "/druid/v2/sql/") (config !! "path"))
          (default (PyStr "http") (config !! "scheme"))
          (default PyNone (config !! "user"))
          (default PyNone (config !! "password")))].
Proof.
  intros Hinit Hhost Hport Hself.
  assert (Hconn : is_connected (self w) = false).
  { rewrite Hself. unfold init in Hinit. by injection Hinit as <-. }
  unfold connect. run. given Hconn. rewrite Hself.
  given (init_connect_arguments _ _ _ _ _ Hinit Hhost Hport).
  destruct (drv_connect _ (drv w)) as [[c|e] d]; run; by intros [= <- <-].
Qed.

(** X8: [__init__] adds the four optional keys and no other, and a
    second pass over the effective configuration changes nothing. *)
Theorem init_defaults_once (name name' : string) (config : dict) h :
  init name (Some config) = Returned h ->
  (forall k, is_Some (connection_data h !! k) <->
             is_Some (config !! k) \/
             k ∈ ["user"; "password"; "path"; "scheme"]) /\
  exists h' : DruidHandler conn,
    init name' (Some (connection_data h)) = Returned h' /\
    connection_data h' = connection_data h.
Proof.
  intros Hinit. split.
  - intros k. rewrite (init_lookup _ _ _ k Hinit).
    destruct (config !! k) as [v|].
    + split; [by left|by eexists].
    + rewrite !elem_of_cons, elem_of_nil.
      repeat case_decide; subst; split; try (by eexists);
        try (intros []; by destruct_or?; try done);
        intros _; right; tauto.
  - destruct (init_connection_data (conn := conn) name' (connection_data h))
      as (h' & Hinit' & _ & _ & Hdata').
    exists h'. split; [done|]. apply map_eq. intros k.
    rewrite Hdata', (init_lookup _ _ _ k Hinit).
    destruct (config !! k); [done|]. by repeat case_decide.
Qed.
End configuration_more.

(** ** The raw query executor, continued *)

Lemma data_width_bound (rows : list row) (r : row) :
  r ∈ rows -> length r <= data_width rows.
Proof.
  induction 1 as [r rows|r r' rows _ IH].
  - change (data_width (r :: rows))
      with (Nat.max (length r) (data_width rows)). lia.
  - change (data_width (r' :: rows))
      with (Nat.max (length r') (data_width rows)). lia.
Qed.

Lemma column_dtypes_length (rows : list row) (js : list nat) floats :
  column_dtypes rows js = Returned floats -> length floats = length js.
Proof.
  revert floats. induction js as [|j js IH]; intros floats; cbn.
  { by intros [= <-]. }
  destruct (scan _ _); [|done].
  destruct (column_dtypes rows js) as [floats'|]; [|done].
  intros [= <-]. cbn. by rewrite (IH floats').
Qed.

(** The frame [pandas] builds has the given labels, one row per tuple,
    and is rectangular. *)
Lemma pd_DataFrame_inv (rows : list row) (names : list pyval) df :
  pd_DataFrame rows names = Returned df ->
  columns df = names /\ length (data df) = length rows /\ rectangular df.
Proof.
  unfold pd_DataFrame. case_decide as Hwidth; [|done].
  unfold convert_object_array.
  destruct (column_dtypes _ _) as [floats|e] eqn:Hkinds; [|done].
  intros [= <-]. apply column_dtypes_length in Hkinds.
  rewrite length_seq in Hkinds.
  split; [done|]. cbn. split; [by rewrite !length_fmap|].
  unfold rectangular. cbn. apply Forall_fmap, Forall_fmap, Forall_forall.
  intros r Hr. cbn. unfold convert_row, pad_row.
  rewrite length_zip_with, length_app, length_replicate, Hkinds, Hwidth.
  pose proof (data_width_bound rows r Hr). lia.
Qed.

Section raw_query_executor_more.
Context {conn cursor dstate : Type} {driver : Driver conn cursor dstate}.
Local Abbreviation M := (M conn cursor dstate).
Local Abbreviation world := (world conn cursor dstate).
Implicit Types (w : world) (c : conn) (cur : cursor) (d : dstate).

(** Picks the list of calls out of [execution_calls]. *)
Ltac pick_calls :=
  unfold execution_calls; cbn;
  first [ apply list_elem_of_here
        | apply list_elem_of_further, list_elem_of_here
        | apply list_elem_of_further, list_elem_of_further, list_elem_of_here ].

(** What the [try] block does, by its outcome. *)
Lemma run_query_inv c cur query w o w' :
  run_query (Some c) cur query w = (o, w') ->
  self w' = self w /\ logged w' = logged w /\
  exists body, calls w' = calls w ++ body /\
    match o with
    | Returned r =>
        body ∈ execution_calls c cur query r /\
        (r = mkResponse OK None None \/
         exists df, r = mkResponse TABLE (Some df) None /\
                    data df <> [] /\ rectangular df)
    | Raised e =>
        body ∈ execution_calls c cur query (mkResponse ERROR None None)
    end.
Proof.
  unfold run_query. run.
  destruct (cursor_execute cur query (drv w)) as [[[]|e] d1]; run.
  2:{ intros [= <- <-]. split_and!; try done. eexists. split; [done|].
      pick_calls. }
  destruct (cursor_fetchall cur d1) as [[rows|e] d2]; run.
  2:{ intros [= <- <-]. split_and!; try done. eexists. cbn.
      rewrite <- (assoc_L (++)). split; [done|]. pick_calls. }
  destruct rows as [|r0 rows]; run.
  - destruct (conn_commit c d2) as [[[]|e] d3]; run;
      intros [= <- <-]; (split_and!; try done); eexists; cbn;
      rewrite <- !(assoc_L (++)); (split; [done|]).
    + split; [pick_calls|by left].
    + pick_calls.
  - destruct (cursor_description cur d2) as [description|]; run.
    2:{ intros [= <- <-]. split_and!; try done. eexists. cbn.
        rewrite <- (assoc_L (++)). split; [done|]. pick_calls. }
    destruct (column_names description) as [names|e]; run.
    2:{ intros [= <- <-]. split_and!; try done. eexists. cbn.
        rewrite <- (assoc_L (++)). split; [done|]. pick_calls. }
    destruct (pd_DataFrame _ names) as [df|e] eqn:Hframe; run.
    2:{ intros [= <- <-]. split_and!; try done. eexists. cbn.
        rewrite <- (assoc_L (++)). split; [done|]. pick_calls. }
    intros [= <- <-]. split_and!; try done. eexists. cbn.
    rewrite <- (assoc_L (++)). split; [done|]. split; [pick_calls|].
    right. exists df. split; [done|].
    destruct (pd_DataFrame_inv _ _ _ Hframe) as (_ & Hlen & Hrect).
    split; [|done]. by destruct (data df).
Qed.

(** What a call of [native_query] that returns has done. *)
Lemma native_query_inv query w r w' :
  native_query query w = (Returned r, w') ->
  exists c w1 cur body,
    connect w = (Returned (Some c), w1) /\
    body ∈ execution_calls c cur query r /\
    calls w'
    = calls w1 ++ Call_cursor c :: body ++ Call_cursor_close cur
        :: (if is_connected (self w) then [] else [Call_close c]) /\
    logged w'
    = logged w ++ match resp_type r with
                  | ERROR => [query_error_message query]
                  | _ => []
                  end /\
    (r = mkResponse OK None None \/
     (exists df, r = mkResponse TABLE (Some df) None /\
                 data df <> [] /\ rectangular df) \/
     (exists e, r = mkResponse ERROR None (Some (exc_str e)))).
Proof.
  unfold native_query. run.
  destruct (connect w) as [[[c|]|e] w1] eqn:Hconnect; run; [|done|done].
  destruct (connect_post _ _ _ Hconnect) as (Hc1 & Hh1 & Hlog1 & _).
  destruct (conn_cursor c (drv w1)) as [[cur|e] d1]; run; [|done].
  match goal with
  | |- context [run_query ?h ?cur ?q ?w2] =>
      destruct (run_query h cur q w2) as [[r0|e] w3] eqn:Hrun;
      apply run_query_inv in Hrun
        as (Hself & Hlog & body & Hcalls & Hbody)
  end; cbn in Hself, Hlog, Hcalls; run.
  - destruct Hbody as (Hbody & Hshape).
    destruct (cursor_close cur (drv w3)) as [[[]|e] d2]; run; [|done].
    destruct (is_connected (self w)) eqn:Hneed; run.
    + intros [= <- <-]. exists c, w1, cur, body. split; [done|].
      split; [done|]. cbn. rewrite Hcalls, Hlog, Hlog1, <- !(assoc_L (++)).
      split; [done|]. split.
      * destruct Hshape as [->|(df & -> & _)]; cbn; by rewrite app_nil_r.
      * destruct Hshape as [->|Hdf]; [by left|right; by left].
    + unfold disconnect. run. rewrite Hself. given Hc1. given Hh1.
      destruct (conn_close c d2) as [[[]|e] d3]; run; [|done].
      intros [= <- <-]. exists c, w1, cur, body. split; [done|].
      split; [done|]. cbn. rewrite Hcalls, Hlog, Hlog1, <- !(assoc_L (++)).
      split; [done|]. split.
      * destruct Hshape as [->|(df & -> & _)]; cbn; by rewrite app_nil_r.
      * destruct Hshape as [->|Hdf]; [by left|right; by left].
  - destruct (exc_is_Exception e); run; [|done].
    destruct (cursor_close cur (drv w3)) as [[[]|e'] d2]; run; [|done].
    destruct (is_connected (self w)) eqn:Hneed; run.
    + intros [= <- <-]. exists c, w1, cur, body. split; [done|].
      split; [done|]. cbn. rewrite Hcalls, Hlog, Hlog1, <- !(assoc_L (++)).
      split; [done|]. split; [done|]. right. right. by exists e.
    + unfold disconnect. run. rewrite Hself. given Hc1. given Hh1.
      destruct (conn_close c d2) as [[[]|e'] d3]; run; [|done].
      intros [= <- <-]. exists c, w1, cur, body. split; [done|].
      split; [done|]. cbn. rewrite Hcalls, Hlog, Hlog1, <- !(assoc_L (++)).
      split; [done|]. split; [done|]. right. right. by exists e.
Qed.
End raw_query_executor_more.

Section raw_query_executor_shape.
Context {conn cursor dstate : Type} {driver : Driver conn cursor dstate}.
Local Abbreviation world := (world conn cursor dstate).
Implicit Types (w : world) (c : conn) (cur : cursor) (d : dstate).

(** X9: a response of [native_query] populates exactly one variant: a
    [TABLE] carries a data frame, with at least one row and every row as
    wide as the list of columns, and no message; an [OK] carries
    neither; an [ERROR] carries a message and no data frame. *)
Theorem native_query_response_shape query w r w' :
  native_query query w = (Returned r, w') ->
  match resp_type r with
  | TABLE =>
      error_message r = None /\
      exists df, data_frame r = Some df /\ data df <> [] /\ rectangular df
  | OK => data_frame r = None /\ error_message r = None
  | ERROR => data_frame r = None /\ is_Some (error_message r)
  end.
Proof.
  intros H. apply native_query_inv in H
    as (_ & _ & _ & _ & _ & _ & _ & _ & [->|[(df & -> & Hne & Hrect)|(e & ->)]]).
  - done.
  - cbn. split; [done|]. by exists df.
  - cbn. split; [done|]. by eexists.
Qed.

(** X10: a call of [native_query] that returns has talked to the driver
    in this order: [connect] if the handler was disconnected; one
    cursor from the connection; on that cursor [execute] with the query
    text, once, then [fetchall], then, only without rows, [commit] on
    the connection (an [ERROR] response may stop after any of these);
    the closing of that cursor; the closing of the connection if the
    call had opened it. *)
Theorem native_query_protocol query w r w' :
  native_query query w = (Returned r, w') ->
  exists c cur body opening closing,
    body ∈ execution_calls c cur query r /\
    calls w'
    = calls w ++ opening ++ Call_cursor c :: body
        ++ Call_cursor_close cur :: closing /\
    (is_connected (self w) = true -> opening = [] /\ closing = []) /\
    (is_connected (self w) = false ->
       (exists args, opening = [Call_connect args]) /\
       closing = [Call_close c]).
Proof.
  intros H. apply native_query_inv in H
    as (c & w1 & cur & body & Hconnect & Hbody & Hcalls & _).
  apply connect_inv in Hconnect
    as [(Hc & _ & ->)|(Hc & args & c' & d & _ & _ & _ & ->)];
    rewrite Hc in Hcalls |- *.
  - exists c, cur, body, [], []. by split_and!.
  - exists c, cur, body, [Call_connect args], [Call_close c].
    split; [done|]. split; [|split; [done|]].
    + rewrite Hcalls. cbn. by rewrite <- !(assoc_L (++)).
    + intros _. split; [by exists args|done].
Qed.

(** X11: [native_query] logs one line, the error line with the query
    text, exactly when it returns an [ERROR] response, and nothing
    otherwise. *)
Theorem native_query_logs_errors_only query w r w' :
  native_query query w = (Returned r, w') ->
  logged w'
  = logged w ++ (if decide (resp_type r = ERROR)
                 then [query_error_message query] else []).
Proof.
  intros H. apply native_query_inv in H
    as (_ & _ & _ & _ & _ & _ & _ & -> & _).
  by destruct (resp_type r).
Qed.
End raw_query_executor_shape.

(** ** What no method changes *)

Section handler_invariant.
Context {conn cursor dstate : Type} {driver : Driver conn cursor dstate}.
Local Abbreviation world := (world conn cursor dstate).
Implicit Types (w : world) (c : conn) (cur : cursor) (d : dstate).

Lemma kept_same w w' : self w' = self w -> handler_kept w w'.
Proof. intros H. unfold handler_kept. by rewrite H. Qed.

Lemma kept_holding w w' c :
  connection_data (self w') = connection_data (self w) ->
  connection (self w') = Some c -> handler_kept w w'.
Proof. intros Hdata Hc. split; [done|]. intros _ _. by exists c. Qed.

Lemma kept_released w w' :
  connection_data (self w') = connection_data (self w) ->
  is_connected (self w') = false -> handler_kept w w'.
Proof. intros Hdata Hc. split; [done|]. intros _. unfold handle_present. congruence. Qed.

Lemma connect_kept w o w' : connect w = (o, w') -> handler_kept w w'.
Proof.
  destruct o as [h|e]; intros H.
  - apply connect_inv in H
      as [(_ & _ & ->)|(_ & args & c & d & _ & _ & _ & ->)].
    + by apply kept_same.
    + by apply (kept_holding _ _ c).
  - apply connect_raises_inv in H as (_ & Hself & _). by apply kept_same.
Qed.

Lemma disconnect_kept w o w' : disconnect w = (o, w') -> handler_kept w w'.
Proof.
  unfold disconnect. run.
  destruct (is_connected (self w)); run;
    [|intros [= <- <-]; by apply kept_same].
  destruct (connection (self w)) as [c|]; run;
    [|intros [= <- <-]; by apply kept_same].
  destruct (conn_close c (drv w)) as [[[]|e] d]; run; intros [= <- <-].
  - by apply kept_released.
  - by apply kept_same.
Qed.

Lemma del_kept w o w' : del w = (o, w') -> handler_kept w w'.
Proof.
  unfold del. run. destruct (is_connected (self w)); run;
    [|intros [= <- <-]; by apply kept_same].
  destruct (disconnect w) as [[r|e] w1] eqn:Hd; run; intros [= <- <-];
    by apply disconnect_kept in Hd.
Qed.

Lemma check_connection_kept w o w' : check_connection w = (o, w') -> handler_kept w w'.
Proof.
  unfold check_connection. run.
  destruct (connect w) as [[h|e] w1] eqn:Hconnect; run.
  - apply connect_inv in Hconnect
      as [(Hc & _ & ->)|(Hc & args & c & d & _ & _ & _ & ->)].
    + given Hc. intros [= <- <-]. by apply kept_same.
    + given Hc. unfold disconnect, opened. run.
      destruct (conn_close c d) as [[[]|e] d']; run; intros [= <- <-].
      * by apply kept_released.
      * by apply (kept_holding _ _ c).
  - destruct (connect_raises_inv _ _ _ Hconnect) as (Hc & Hself & _).
    destruct (exc_is_Exception e); run; rewrite Hself; given Hc;
      intros [= <- <-]; by apply kept_same.
Qed.

Lemma native_query_kept query w o w' :
  native_query query w = (o, w') -> handler_kept w w'.
Proof.
  destruct (is_connected (self w)) eqn:Hconn.
  { intros H. apply (native_query_connected_keeps _ _ _ _ Hconn) in H
      as (Hself & _). by apply kept_same. }
  unfold native_query. run. given Hconn.
  destruct (connect w) as [[h|e] w1] eqn:Hconnect; run.
  2:{ intros [= <- <-]. by apply connect_kept in Hconnect. }
  apply connect_inv in Hconnect
    as [(Hc & _)|(_ & args & c & d & _ & _ & -> & ->)]; [congruence|].
  unfold opened. run.
  destruct (conn_cursor c d) as [[cur|e] d1]; run;
    [|intros [= <- <-]; by apply (kept_holding _ _ c)].
  match goal with
  | |- context [run_query ?h ?cur ?q ?w1] =>
      destruct (run_query h cur q w1) as [[r0|e] w2] eqn:Hrun;
      apply run_query_inv in Hrun as (Hself & _)
  end; cbn in Hself; run.
  all: try (destruct (exc_is_Exception e); run;
            [|intros [= <- <-]; apply (kept_holding _ _ c); by rewrite Hself]).
  all: destruct (cursor_close cur (drv w2)) as [[[]|e'] d2]; run;
    [|intros [= <- <-]; apply (kept_holding _ _ c); by rewrite Hself].
  all: unfold disconnect; run; rewrite Hself; run.
  all: destruct (conn_close c d2) as [[[]|e'] d3]; run; intros [= <- <-].
  all: first [by apply kept_released | by apply (kept_holding _ _ c)].
Qed.

Lemma get_tables_kept w o w' : get_tables w = (o, w') -> handler_kept w w'.
Proof.
  unfold get_tables. run.
  destruct (native_query tables_query w) as [[r|e] w1] eqn:Hq; run.
  - destruct (subscript _ _); run; intros [= <- <-];
      by apply native_query_kept in Hq.
  - intros [= <- <-]. by apply native_query_kept in Hq.
Qed.

Lemma get_columns_kept table_name w o w' :
  get_columns table_name w = (o, w') -> handler_kept w w'.
Proof.
  unfold get_columns. run.
  destruct (native_query _ w) as [[r|e] w1] eqn:Hq; run.
  - destruct (subscript _ _); run; intros [= <- <-];
      by apply native_query_kept in Hq.
  - intros [= <- <-]. by apply native_query_kept in Hq.
Qed.

(** X12: whatever methods are called on a handler made by [__init__],
    in whatever order and whatever the driver returns or raises, the
    handler's configuration stays the effective configuration of
    [__init__], and whenever the handler says it is connected it holds
    a connection. *)
Theorem handler_invariant (name : string) (config : dict) h w0 w :
  init name (Some config) = Returned h ->
  self w0 = h ->
  rtc method_call w0 w ->
  connection_data (self w) = connection_data h /\
  handle_present (self w).
Proof.
  intros Hinit Hself Hcalls.
  assert (Hstart : handle_present (self w0)).
  { rewrite Hself. unfold init in Hinit. injection Hinit as <-. done. }
  rewrite <- Hself. clear Hinit Hself.
  induction Hcalls as [w|w w1 w2 Hcall _ IH]; [done|].
  assert (Hkept : handler_kept w w1).
  { destruct Hcall;
      eauto using connect_kept, disconnect_kept, del_kept,
        check_connection_kept, native_query_kept, get_tables_kept,
        get_columns_kept. }
  destruct Hkept as (Hdata & Hhandle).
  destruct (IH (Hhandle Hstart)) as (Hdata2 & Hhandle2).
  split; [congruence|done].
Qed.
End handler_invariant.

(** ** Schema introspection, continued *)

(** The positions [label_positions] finds are those of the columns with
    that label. *)
Lemma label_positions_spec (cols : list pyval) (label : string) (i : nat) :
  i ∈ label_positions cols label <-> cols !! i = Some (PyStr label).
Proof.
  unfold label_positions.
  match goal with
  | |- _ ∈ ?go 0%nat cols <-> _ =>
      enough (Hgo : forall k, i ∈ go k cols
                <-> k <= i /\ cols !! (i - k)%nat = Some (PyStr label))
  end.
  { rewrite Hgo, Nat.sub_0_r. intuition lia. }
  induction cols as [|c cols IH]; intros k.
  - rewrite elem_of_nil, lookup_nil. intuition congruence.
  - case_decide as Hc.
    + rewrite elem_of_cons, IH. split.
      * intros [->|(Hk & Hi)].
        -- rewrite Nat.sub_diag. cbn. split; [lia|congruence].
        -- split; [lia|]. by replace (i - k)%nat with (S (i - S k)) by lia.
      * intros (Hk & Hi). destruct (decide (i = k)) as [->|Hne]; [by left|].
        right. split; [lia|].
        by replace (i - k)%nat with (S (i - S k)) in Hi by lia.
    + rewrite IH. split.
      * intros (Hk & Hi). split; [lia|].
        by replace (i - k)%nat with (S (i - S k)) by lia.
      * intros (Hk & Hi). destruct (decide (i = k)) as [->|Hne].
        -- rewrite Nat.sub_diag in Hi. cbn in Hi. congruence.
        -- split; [lia|].
           by replace (i - k)%nat with (S (i - S k)) in Hi by lia.
Qed.

(** Every column of [df[labels]] carries one of the labels asked for,
    and no row is lost. *)
Lemma df_getitem_inv (df df' : DataFrame) (labels : list string) :
  df_getitem df labels = Returned df' ->
  Forall (fun c => exists l, l ∈ labels /\ c = PyStr l) (columns df') /\
  length (data df') = length (data df).
Proof.
  unfold df_getitem. case_decide; [|by case_decide]. intros [= <-]. cbn.
  split; [|by rewrite length_fmap].
  apply Forall_fmap, Forall_forall. intros i Hi. cbn.
  apply list_elem_of_bind in Hi as (l & Hi & Hl).
  apply label_positions_spec in Hi. exists l. split; [done|].
  by rewrite (nth_lookup_Some _ _ _ _ Hi).
Qed.

(** Two labels, each of one column, select these two columns. *)
Lemma df_getitem_two (df : DataFrame) (l1 l2 : string) (i j : nat) :
  label_positions (columns df) l1 = [i] ->
  label_positions (columns df) l2 = [j] ->
  df_getitem df [l1; l2] = Returned (two_columns l1 l2 i j df).
Proof.
  intros Hi Hj. unfold df_getitem.
  assert (Hci : columns df !! i = Some (PyStr l1))
    by (apply label_positions_spec; rewrite Hi; apply list_elem_of_here).
  assert (Hcj : columns df !! j = Some (PyStr l2))
    by (apply label_positions_spec; rewrite Hj; apply list_elem_of_here).
  rewrite !filter_cons, filter_nil, Hi, Hj.
  rewrite (decide_False (P := [i] = [])) by done.
  rewrite (decide_False (P := [j] = [])) by done.
  rewrite decide_True by done.
  cbn. rewrite Hi, Hj. cbn.
  by rewrite (nth_lookup_Some _ _ _ _ Hci), (nth_lookup_Some _ _ _ _ Hcj).
Qed.

Section schema_introspection_more.
Context {conn cursor dstate : Type} {driver : Driver conn cursor dstate}.
Local Abbreviation world := (world conn cursor dstate).
Implicit Types (w : world).

(** X13: when the raw query of [get_tables] returns a [TABLE] response
    whose frame has one column [TABLE_NAME], at [i], and one column
    [TABLE_TYPE], at [j], [get_tables] returns the [TABLE] response
    with these two columns of every row, in this order, under the labels
    [table_name] and [table_type]; the other columns are dropped. *)
Theorem get_tables_projects w df w' (i j : nat) :
  native_query tables_query w
  = (Returned (mkResponse TABLE (Some df) None), w') ->
  label_positions (columns df) "TABLE_NAME" = [i] ->
  label_positions (columns df) "TABLE_TYPE" = [j] ->
  get_tables w
  = (Returned (mkResponse TABLE
                 (Some (two_columns "table_name" "table_type" i j df)) None),
     w').
Proof.
  intros Hq Hi Hj. unfold get_tables. run. given Hq.
  unfold subscript. cbn. by rewrite (df_getitem_two df _ _ i j Hi Hj).
Qed.

(** X14: the same for [get_columns] with [COLUMN_NAME] and
    [DATA_TYPE], which come back as [column_name] and [data_type],
    whatever the table name. *)
Theorem get_columns_projects (table_name : string) w df w' (i j : nat) :
  native_query (columns_query table_name) w
  = (Returned (mkResponse TABLE (Some df) None), w') ->
  label_positions (columns df) "COLUMN_NAME" = [i] ->
  label_positions (columns df) "DATA_TYPE" = [j] ->
  get_columns table_name w
  = (Returned (mkResponse TABLE
                 (Some (two_columns "column_name" "data_type" i j df)) None),
     w').
Proof.
  intros Hq Hi Hj. unfold get_columns. run. given Hq.
  unfold subscript. cbn. by rewrite (df_getitem_two df _ _ i j Hi Hj).
Qed.

(** X15: [get_tables] returns nothing but tables.  Whenever it returns,
    the response is a [TABLE] without message whose frame has at least
    one row and only columns labelled [table_name] or [table_type]; the
    [OK] and [ERROR] responses of the raw query never come back. *)
Theorem get_tables_returns_table w r w' :
  get_tables w = (Returned r, w') ->
  resp_type r = TABLE /\ error_message r = None /\
  exists df, data_frame r = Some df /\ data df <> [] /\
    Forall (fun c => c = PyStr "table_name" \/ c = PyStr "table_type")
      (columns df).
Proof.
  unfold get_tables. run.
  destruct (native_query tables_query w) as [[r0|e] w1] eqn:Hq; run; [|done].
  apply native_query_inv in Hq
    as (_ & _ & _ & _ & _ & _ & _ & _ & [->|[(df & -> & Hne & _)|(e & ->)]]);
    cbn; [done| |done].
  destruct (df_getitem df _) as [df'|e] eqn:Hget; run; [|done].
  intros [= <- <-]. cbn. split; [done|]. split; [done|].
  destruct (df_getitem_inv _ _ _ Hget) as (Hcols & Hlen).
  eexists. split; [done|]. cbn. split.
  - destruct (data df'), (data df); done.
  - apply Forall_fmap. eapply Forall_impl; [exact Hcols|].
    intros c (l & Hl & ->). cbn.
    apply elem_of_cons in Hl as [->|Hl]; [by left|].
    apply elem_of_cons in Hl as [->|Hl]; [by right|].
    by apply elem_of_nil in Hl.
Qed.

(** X16: [get_columns] returns nothing but tables either: whenever it
    returns, the response is a [TABLE] without message whose frame has
    at least one row and only columns labelled [column_name] or
    [data_type].  A table without columns, or one that does not exist,
    makes it raise. *)
Theorem get_columns_returns_table (table_name : string) w r w' :
  get_columns table_name w = (Returned r, w') ->
  resp_type r = TABLE /\ error_message r = None /\
  exists df, data_frame r = Some df /\ data df <> [] /\
    Forall (fun c => c = PyStr "column_name" \/ c = PyStr "data_type")
      (columns df).
Proof.
  unfold get_columns. run.
  destruct (native_query _ w) as [[r0|e] w1] eqn:Hq; run; [|done].
  apply native_query_inv in Hq
    as (_ & _ & _ & _ & _ & _ & _ & _ & [->|[(df & -> & Hne & _)|(e & ->)]]);
    cbn; [done| |done].
  destruct (df_getitem df _) as [df'|e] eqn:Hget; run; [|done].
  intros [= <- <-]. cbn. split; [done|]. split; [done|].
  destruct (df_getitem_inv _ _ _ Hget) as (Hcols & Hlen).
  eexists. split; [done|]. cbn. split.
  - destruct (data df'), (data df); done.
  - apply Forall_fmap. eapply Forall_impl; [exact Hcols|].
    intros c (l & Hl & ->). cbn.
    apply elem_of_cons in Hl as [->|Hl]; [by left|].
    apply elem_of_cons in Hl as [->|Hl]; [by right|].
    by apply elem_of_nil in Hl.
Qed.
End schema_introspection_more.

(** ** The further properties against the scripted driver *)

(** A connected handler is disconnected twice. *)
Lemma disconnect_idempotent_witness :
  let w := start (connected_handler example_config 1%nat) (serving [] []) in
  let w1 := closed w 1%nat (serving [] []) in
  disconnect w1 = (Returned None, w1) /\
  (disconnect ;; disconnect) w = (Returned None, w1) /\
  calls w1 = [Call_close 1%nat].
Proof.
  intros w w1.
  assert (H : disconnect w = (Returned (Some false), w1)) by reflexivity.
  destruct (disconnect_idempotent w _ w1 H) as (Hagain & Hboth & _ & _).
  split; [exact Hagain|]. split; [exact Hboth|reflexivity].
Defined.


(** The server cannot be reached. *)
Lemma connect_failure_keeps_state_witness :
  let w := start (new_handler example_config)
             (unreachable connection_refused) in
  let w' := mkWorld (self w) (unreachable connection_refused)
              [Call_connect example_args] [] in
  self w' = self w /\ is_connected (self w') = false /\
  (calls w' = calls w \/
   exists args, calls w' = calls w ++ [Call_connect args]).
Proof.
  intros w w'.
  assert (H : connect w = (Raised connection_refused, w')) by reflexivity.
  exact (connect_failure_keeps_state w _ w' H).
Defined.

(** The probe of a server that cannot be reached. *)
Lemma check_connection_failure_witness :
  let w := start (new_handler example_config)
             (unreachable connection_refused) in
  check_connection w
  = (Returned (mkStatusResponse false (Some "Connection refused")),
     mkWorld (self w) (unreachable connection_refused)
       [Call_connect example_args]
       ["Error connecting to Pinot, Connection refused!"]) /\
  is_connected (self w) = false.
Proof.
  intros w.
  apply (check_connection_failure w connection_refused
           (mkWorld (self w) (unreachable connection_refused)
              [Call_connect example_args] [])); reflexivity.
Defined.

(** The probe of a server that answers. *)
Lemma check_connection_restores_witness :
  let w := start (new_handler example_config) (serving [] []) in
  exists r w',
    check_connection w = (Returned r, w') /\
    is_connected (self w') = is_connected (self w) /\
    ((success r = true /\ status_error_message r = None) \/
     (success r = false /\ is_Some (status_error_message r) /\
      is_connected (self w) = false)).
Proof.
  intros w.
  destruct (check_connection w) as [[r|e] w'] eqn:Hcheck;
    [|vm_compute in Hcheck; discriminate Hcheck].
  exists r, w'. split; [reflexivity|].
  exact (check_connection_restores w r w' Hcheck).
Defined.

(** The probe of a server whose connections cannot be closed. *)
Lemma check_connection_close_raises_witness :
  let w := start (new_handler example_config) (stuck_open close_failed) in
  exists w',
    check_connection w = (Raised close_failed, w') /\
    is_connected (self w') = true /\ connection (self w') = Some 1%nat.
Proof.
  intros w.
  apply (check_connection_close_raises w 1%nat
           (opened w example_args 1%nat (stuck_open close_failed))
           close_failed (stuck_open close_failed)); reflexivity.
Defined.

(** A connected handler is destroyed. *)
Lemma del_releases_witness :
  let w := start (connected_handler example_config 1%nat) (serving [] []) in
  let w' := closed w 1%nat (serving [] []) in
  is_connected (self w') = false /\
  (is_connected (self w) = false -> w' = w) /\
  (is_connected (self w) = true ->
     exists c, connection (self w) = Some c /\
               calls w' = calls w ++ [Call_close c]).
Proof.
  intros w w'.
  assert (H : del w = (Returned (), w')) by reflexivity.
  exact (del_releases w w' H).
Defined.

(** The first [connect] of the handler of [example_config]. *)
Lemma init_then_connect_witness :
  let w := start (new_handler example_config) (serving [] []) in
  let w' := opened w example_args 1%nat (serving [] []) in
  calls w'
  = calls w ++
    [Call_connect
       (mkConnectArgs (PyStr "localhost") (PyInt 8888)
          (default (PyStr "/druid/v2/sql/") (example_config !! "path"))
          (default (PyStr "http") (example_config !! "scheme"))
          (default PyNone (example_config !! "user"))
          (default PyNone (example_config !! "password")))].
Proof.
  intros w w'.
  apply (init_then_connect "druid_datasource" example_config
           (PyStr "localhost") (PyInt 8888) (new_handler example_config)
           w (Returned (Some 1%nat)) w'); reflexivity.
Defined.

(** The effective configuration of [example_config], once more through
    [__init__]. *)
Lemma init_defaults_once_witness :
  (forall k, is_Some (connection_data (new_handler example_config) !! k) <->
             is_Some (example_config !! k) \/
             k ∈ ["user"; "password"; "path"; "scheme"]) /\
  exists h' : DruidHandler nat,
    init "again" (Some (connection_data (new_handler example_config)))
    = Returned h' /\
    connection_data h' = connection_data (new_handler example_config).
Proof.
  apply (init_defaults_once "druid_datasource" "again" example_config
           (new_handler example_config)).
  reflexivity.
Defined.

(** A query with one row. *)
Lemma native_query_response_shape_witness :
  let w := start (new_handler example_config)
             (serving tables_description tables_rows) in
  exists r w',
    native_query "SELECT 1" w = (Returned r, w') /\
    match resp_type r with
    | TABLE =>
        error_message r = None /\
        exists df, data_frame r = Some df /\ data df <> [] /\ rectangular df
    | OK => data_frame r = None /\ error_message r = None
    | ERROR => data_frame r = None /\ is_Some (error_message r)
    end.
Proof.
  intros w.
  destruct (native_query "SELECT 1" w) as [[r|e] w'] eqn:Hq;
    [|vm_compute in Hq; discriminate Hq].
  exists r, w'. split; [reflexivity|].
  exact (native_query_response_shape "SELECT 1" w r w' Hq).
Defined.

(** A statement without rows on a disconnected handler. *)
Lemma native_query_protocol_witness :
  let w := start (new_handler example_config) (serving [] []) in
  exists r w' c cur body opening closing,
    native_query "DROP TABLE t1" w = (Returned r, w') /\
    body ∈ execution_calls c cur "DROP TABLE t1" r /\
    calls w'
    = calls w ++ opening ++ Call_cursor c :: body
        ++ Call_cursor_close cur :: closing /\
    (is_connected (self w) = true -> opening = [] /\ closing = []) /\
    (is_connected (self w) = false ->
       (exists args, opening = [Call_connect args]) /\
       closing = [Call_close c]).
Proof.
  intros w.
  destruct (native_query "DROP TABLE t1" w) as [[r|e] w'] eqn:Hq;
    [|vm_compute in Hq; discriminate Hq].
  destruct (native_query_protocol "DROP TABLE t1" w r w' Hq)
    as (c & cur & body & opening & closing & H).
  exists r, w', c, cur, body, opening, closing. split; [reflexivity|exact H].
Defined.

(** A rejected query. *)
Lemma native_query_logs_errors_only_witness :
  let w := start (new_handler example_config) (rejecting query_error) in
  exists r w',
    native_query "SELECT 1" w = (Returned r, w') /\
    logged w'
    = logged w ++ (if decide (resp_type r = ERROR)
                   then [query_error_message "SELECT 1"] else []).
Proof.
  intros w.
  destruct (native_query "SELECT 1" w) as [[r|e] w'] eqn:Hq;
    [|vm_compute in Hq; discriminate Hq].
  exists r, w'. split; [reflexivity|].
  exact (native_query_logs_errors_only "SELECT 1" w r w' Hq).
Defined.

(** A new handler after [connect]. *)
Lemma handler_invariant_witness :
  let w0 := start (new_handler example_config) (serving [] []) in
  let w := opened w0 example_args 1%nat (serving [] []) in
  connection_data (self w) = connection_data (new_handler example_config) /\
  handle_present (self w).
Proof.
  intros w0 w.
  apply (handler_invariant "druid_datasource" example_config
           (new_handler example_config) w0 w).
  - reflexivity.
  - reflexivity.
  - apply rtc_once. apply (call_connect w0 w (Returned (Some 1%nat))).
    reflexivity.
Defined.

(** The information schema lists one table. *)
Lemma get_tables_projects_witness :
  let w := start (new_handler example_config)
             (serving tables_description tables_rows) in
  let df := mkDataFrame [PyStr "TABLE_NAME"; PyStr "TABLE_TYPE"] tables_rows in
  exists w',
    get_tables w
    = (Returned (mkResponse TABLE
                   (Some (two_columns "table_name" "table_type" 0 1 df)) None),
       w').
Proof.
  intros w df.
  destruct (native_query tables_query w) as [o w'] eqn:Hq.
  exists w'. apply (get_tables_projects w df w' 0%nat 1%nat).
  - rewrite Hq. vm_compute in Hq. injection Hq as <- _. reflexivity.
  - vm_compute. reflexivity.
  - vm_compute. reflexivity.
Defined.

(** The information schema lists two columns of a table, with the schema
    and the table in front. *)
Lemma get_columns_projects_witness :
  let w := start (new_handler example_config)
             (serving columns_description columns_rows) in
  let df := mkDataFrame
              [PyStr "TABLE_SCHEMA"; PyStr "TABLE_NAME"; PyStr "COLUMN_NAME";
               PyStr "DATA_TYPE"] columns_rows in
  exists w',
    get_columns "t1" w
    = (Returned (mkResponse TABLE
                   (Some (two_columns "column_name" "data_type" 2 3 df)) None),
       w').
Proof.
  intros w df.
  destruct (native_query (columns_query "t1") w) as [o w'] eqn:Hq.
  exists w'. apply (get_columns_projects "t1" w df w' 2%nat 3%nat).
  - rewrite Hq. vm_compute in Hq. injection Hq as <- _. reflexivity.
  - vm_compute. reflexivity.
  - vm_compute. reflexivity.
Defined.

Lemma get_tables_returns_table_witness :
  let w := start (new_handler example_config)
             (serving tables_description tables_rows) in
  exists r w',
    get_tables w = (Returned r, w') /\
    resp_type r = TABLE /\ error_message r = None /\
    exists df, data_frame r = Some df /\ data df <> [] /\
      Forall (fun c => c = PyStr "table_name" \/ c = PyStr "table_type")
        (columns df).
Proof.
  intros w.
  destruct (get_tables w) as [[r|e] w'] eqn:Hq;
    [|vm_compute in Hq; discriminate Hq].
  exists r, w'. split; [reflexivity|].
  exact (get_tables_returns_table w r w' Hq).
Defined.

Lemma get_columns_returns_table_witness :
  let w := start (new_handler example_config)
             (serving columns_description columns_rows) in
  exists r w',
    get_columns "t1" w = (Returned r, w') /\
    resp_type r = TABLE /\ error_message r = None /\
    exists df, data_frame r = Some df /\ data df <> [] /\
      Forall (fun c => c = PyStr "column_name" \/ c = PyStr "data_type")
        (columns df).
Proof.
  intros w.
  destruct (get_columns "t1" w) as [[r|e] w'] eqn:Hq;
    [|vm_compute in Hq; discriminate Hq].
  exists r, w'. split; [reflexivity|].
  exact (get_columns_returns_table "t1" w r w' Hq).
Defined.

(** The connection hands out no cursor. *)
Lemma native_query_cursor_raises_witness :
  let w := start (new_handler example_config) (without_cursor query_error) in
  let w1 := opened w example_args 1%nat (without_cursor query_error) in
  exists w',
    native_query "SELECT 1" w = (Raised query_error, w') /\
    is_connected (self w') = true /\
    calls w' = calls w1 ++ [Call_cursor 1%nat].
Proof.
  intros w w1.
  apply (native_query_cursor_raises "SELECT 1" w 1%nat w1 query_error
           (without_cursor query_error)); reflexivity.
Defined.

(** The query is rejected and the cursor cannot be closed. *)
Lemma native_query_cursor_close_raises_witness :
  let w := start (new_handler example_config)
             (cursor_stuck query_error close_failed) in
  exists w', native_query "SELECT 1" w = (Raised close_failed, w').
Proof.
  intros w.
  apply (native_query_cursor_close_raises "SELECT 1" w 1%nat
           (opened w example_args 1%nat (cursor_stuck query_error close_failed))
           7%nat (cursor_stuck query_error close_failed) query_error
           (cursor_stuck query_error close_failed) close_failed
           (cursor_stuck query_error close_failed)).
  - reflexivity.
  - reflexivity.
  - apply execute_raises. reflexivity.
  - reflexivity.
  - reflexivity.
Defined.
